(** * Insert-timestamp Stream Deck action: a shallow embedding of [src/plugin.ts]

    The action formats the current instant ([getFormattedTimestamp]) and
    inserts the text by writing it to the clipboard and sending a paste
    keystroke through an external command ([copyPasteText]); [onKeyDown]
    drives both and acknowledges on the key.

    Layout of the development:
    - [Js]     : the parts of the JavaScript runtime the action calls
                 (string replacement, [padStart], number printing, the
                 ECMAScript date arithmetic, [toISOString]);
    - [Shell]  : how the two shells read the quoted text the action builds
                 (a PowerShell single-quoted literal, a POSIX double-quoted
                 word);
    - [Plugin] : the action itself, over an explicit host and world;
    - the properties of the action. *)

From Stdlib Require Import ZArith List String Ascii Bool Lia DecimalString.
From Stdlib Require DecimalZ DecimalPos.
Import ListNotations.

Local Open Scope string_scope.
Local Open Scope Z_scope.

(* ===================================================================== *)
(** * The JavaScript runtime, as far as the action uses it *)
(* ===================================================================== *)

Module Js.

(** A JavaScript string is a sequence of code units; here a [string].  Every
    character the action tests for or inserts is a single ASCII code unit. *)

(** ** [String.prototype.replace] with a one-character global pattern *)

(** [GetSubstitution] for a pattern without capture groups: [$$] stands for a
    dollar sign, [$&] for the match, [$`] for the text before the match and
    [$'] for the text after it; any other dollar sign, and every other
    character of the replacement text, stands for itself. *)
Fixpoint getSubstitution (matched before after replacement : string) : string :=
  match replacement with
  | EmptyString => EmptyString
  | String c rest =>
      if Ascii.eqb c "$" then
        match rest with
        | String d rest' =>
            if Ascii.eqb d "$" then
              String "$" (getSubstitution matched before after rest')
            else if Ascii.eqb d "&" then
              matched ++ getSubstitution matched before after rest'
            else if Ascii.eqb d "`" then
              before ++ getSubstitution matched before after rest'
            else if Ascii.eqb d "'" then
              after ++ getSubstitution matched before after rest'
            else String c (getSubstitution matched before after rest)
        | EmptyString => String c EmptyString
        end
      else String c (getSubstitution matched before after rest)
  end.

(** The replacement loop: [seen] holds, most recent first, the characters of
    the subject already passed. *)
Fixpoint replaceFrom (pat : ascii) (replacement : string)
    (seen : list ascii) (s : string) : string :=
  match s with
  | EmptyString => EmptyString
  | String c rest =>
      if Ascii.eqb c pat then
        getSubstitution (String c EmptyString)
          (string_of_list_ascii (rev seen)) rest replacement
        ++ replaceFrom pat replacement (c :: seen) rest
      else String c (replaceFrom pat replacement (c :: seen) rest)
  end.

(** [s.replace(/pat/g, replacement)] for a pattern that matches exactly the
    character [pat]. *)
Definition replace (pat : ascii) (replacement : string) (s : string) : string :=
  replaceFrom pat replacement [] s.

(** ** [String.prototype.padStart] *)

(** The first [n] characters of [filler] repeated for ever; [pending] is what
    is left of the copy being written. *)
Fixpoint repeatTo (n : nat) (filler pending : string) : string :=
  match n with
  | O => EmptyString
  | S n' =>
      match pending with
      | String c rest => String c (repeatTo n' filler rest)
      | EmptyString =>
          match filler with
          | String c rest => String c (repeatTo n' filler rest)
          | EmptyString => EmptyString
          end
      end
  end.

Definition padStart (targetLength : nat) (filler : string) (s : string) : string :=
  if (targetLength <=? String.length s)%nat then s
  else repeatTo (targetLength - String.length s) filler filler ++ s.

(** ** [String(n)] for an integral number *)

Definition numberToString (n : Z) : string :=
  NilZero.string_of_int (Z.to_int n).

(** ** [String.prototype.includes] *)

Fixpoint includes (needle s : string) : bool :=
  String.prefix needle s ||
  match s with
  | EmptyString => false
  | String _ rest => includes needle rest
  end.

(** ** Dates: ECMAScript's time values

    A time value is a number of milliseconds since 1970-01-01T00:00:00Z. *)

Definition msPerDay : Z := 86400000.
Definition msPerHour : Z := 3600000.
Definition msPerMinute : Z := 60000.
Definition msPerSecond : Z := 1000.

Definition Day (t : Z) : Z := t / msPerDay.
Definition TimeWithinDay (t : Z) : Z := t mod msPerDay.

Definition DaysInYear (y : Z) : Z :=
  if negb (y mod 4 =? 0) then 365
  else if negb (y mod 100 =? 0) then 366
  else if negb (y mod 400 =? 0) then 365
  else 366.

Definition DayFromYear (y : Z) : Z :=
  365 * (y - 1970) + (y - 1969) / 4 - (y - 1901) / 100 + (y - 1601) / 400.

Definition TimeFromYear (y : Z) : Z := msPerDay * DayFromYear y.

(** The largest year whose first day is not after [t]: an estimate from the
    mean length of a year, moved by one where it is off (see
    [YearFromTime_spec]). *)
Definition YearFromTime (t : Z) : Z :=
  let d := Day t in
  let y := 1970 + (400 * d) / 146097 in
  if d <? DayFromYear y then y - 1
  else if DayFromYear (y + 1) <=? d then y + 1
  else y.

Definition InLeapYear (t : Z) : Z :=
  if DaysInYear (YearFromTime t) =? 366 then 1 else 0.

Definition DayWithinYear (t : Z) : Z := Day t - DayFromYear (YearFromTime t).

Definition MonthFromTime (t : Z) : Z :=
  let d := DayWithinYear t in
  let leap := InLeapYear t in
  if d <? 31 then 0
  else if d <? 59 + leap then 1
  else if d <? 90 + leap then 2
  else if d <? 120 + leap then 3
  else if d <? 151 + leap then 4
  else if d <? 181 + leap then 5
  else if d <? 212 + leap then 6
  else if d <? 243 + leap then 7
  else if d <? 273 + leap then 8
  else if d <? 304 + leap then 9
  else if d <? 334 + leap then 10
  else 11.

Definition DateFromTime (t : Z) : Z :=
  let d := DayWithinYear t in
  let leap := InLeapYear t in
  match MonthFromTime t with
  | 0 => d + 1
  | 1 => d - 30
  | 2 => d - 58 - leap
  | 3 => d - 89 - leap
  | 4 => d - 119 - leap
  | 5 => d - 150 - leap
  | 6 => d - 180 - leap
  | 7 => d - 211 - leap
  | 8 => d - 242 - leap
  | 9 => d - 272 - leap
  | 10 => d - 303 - leap
  | _ => d - 333 - leap
  end.

Definition WeekDay (t : Z) : Z := (Day t + 4) mod 7.
Definition HourFromTime (t : Z) : Z := (t / msPerHour) mod 24.
Definition MinFromTime (t : Z) : Z := (t / msPerMinute) mod 60.
Definition SecFromTime (t : Z) : Z := (t / msPerSecond) mod 60.
Definition msFromTime (t : Z) : Z := t mod msPerSecond.

(** ** [Date.prototype.toISOString]

    Years 0 to 9999 are written with four digits, the others with a sign and
    six digits. *)
Definition isoYear (y : Z) : string :=
  if (0 <=? y) && (y <=? 9999) then padStart 4 "0" (numberToString y)
  else (if y <? 0 then "-" else "+") ++ padStart 6 "0" (numberToString (Z.abs y)).

Definition toISOString (t : Z) : string :=
  isoYear (YearFromTime t) ++ "-" ++
  padStart 2 "0" (numberToString (MonthFromTime t + 1)) ++ "-" ++
  padStart 2 "0" (numberToString (DateFromTime t)) ++ "T" ++
  padStart 2 "0" (numberToString (HourFromTime t)) ++ ":" ++
  padStart 2 "0" (numberToString (MinFromTime t)) ++ ":" ++
  padStart 2 "0" (numberToString (SecFromTime t)) ++ "." ++
  padStart 3 "0" (numberToString (msFromTime t)) ++ "Z".

End Js.

(* ===================================================================== *)
(** * How the shells read the text the action quotes *)
(* ===================================================================== *)

Module Shell.

(** The double-quote character (code 34). *)
Definition dquote : ascii := "034"%char.

(** ** PowerShell: a single-quoted string literal

    [singleQuoted s] reads the literal whose opening quote has just been
    passed: a pair of single quotes stands for one single quote, a lone one
    closes the literal, and every other character stands for itself.  The
    result is the literal's value and the text that follows the closing
    quote; [None] when the literal is never closed.  The quote is the ASCII
    one; how the command line reaches PowerShell through the system shell is
    not part of the model. *)
Fixpoint singleQuoted (s : string) : option (string * string) :=
  match s with
  | EmptyString => None
  | String c rest =>
      if Ascii.eqb c "'" then
        match rest with
        | String d rest' =>
            if Ascii.eqb d "'" then
              match singleQuoted rest' with
              | Some (v, r) => Some (String "'" v, r)
              | None => None
              end
            else Some (EmptyString, rest)
        | EmptyString => Some (EmptyString, rest)
        end
      else
        match singleQuoted rest with
        | Some (v, r) => Some (String c v, r)
        | None => None
        end
  end.

(** ** POSIX shell: a double-quoted word

    Inside double quotes a backslash quotes a following dollar sign,
    backquote, double quote or backslash, and removes a following newline;
    before any other character it stands for itself.  An unquoted dollar sign
    or backquote starts an expansion, whose result the text alone does not
    determine.  What [echo] then does with its argument is not part of the
    model. *)
Inductive Quoted : Type :=
  | Literal (value rest : string)
  | Expansion
  | Unterminated.

Definition consQuoted (c : ascii) (q : Quoted) : Quoted :=
  match q with
  | Literal v r => Literal (String c v) r
  | other => other
  end.

Fixpoint doubleQuoted (s : string) : Quoted :=
  match s with
  | EmptyString => Unterminated
  | String c rest =>
      if Ascii.eqb c dquote then Literal EmptyString rest
      else if Ascii.eqb c "\" then
        match rest with
        | String d rest' =>
            if Ascii.eqb d "$" || Ascii.eqb d "`" || Ascii.eqb d dquote
               || Ascii.eqb d "\"
            then consQuoted d (doubleQuoted rest')
            else if Ascii.eqb d "010" then doubleQuoted rest'
            else consQuoted c (consQuoted d (doubleQuoted rest'))
        | EmptyString => Unterminated
        end
      else if Ascii.eqb c "$" || Ascii.eqb c "`" then Expansion
      else consQuoted c (doubleQuoted rest)
  end.

(** The value of the first single-quoted literal of a PowerShell command,
    with the text after the literal. *)
Fixpoint firstSingleQuoted (cmd : string) : option (string * string) :=
  match cmd with
  | EmptyString => None
  | String c rest => if Ascii.eqb c "'" then singleQuoted rest else firstSingleQuoted rest
  end.

(** The first double-quoted word of a POSIX shell command. *)
Fixpoint firstDoubleQuoted (cmd : string) : Quoted :=
  match cmd with
  | EmptyString => Unterminated
  | String c rest => if Ascii.eqb c dquote then doubleQuoted rest else firstDoubleQuoted rest
  end.

End Shell.

(* ===================================================================== *)
(** * The action *)
(* ===================================================================== *)

Module Plugin.

Import Js.
Import Shell.

(** ** Settings and events *)

(** [type TimestampSettings = { format?: string }] *)
Record TimestampSettings : Type := { format : option string }.

(** The part of a [KeyDownEvent] the handler reads: [ev.payload.settings],
    which the handler reads through [?.]. *)
Record KeyDownEvent : Type := { settings : option TimestampSettings }.

(** ** Errors, the host and the world *)

(** A thrown [Error]. *)
Record JsError : Type := { message : string }.

(** [`${error}`]: [Error.prototype.toString] of an error named [Error]. *)
Definition errorToString (e : JsError) : string :=
  if String.eqb (message e) "" then "Error" else "Error: " ++ message e.

Inductive LogLevel : Type := LogInfo | LogWarn | LogError.

(** What the action reads from its surroundings.  [execResult done cmd] is the
    outcome of running [cmd] after the commands [done]: [None] when the
    command exits with status zero, the error [exec] reports otherwise (the
    command is not found, or exits with another status). *)
Record Host : Type := {
  platform : string;
  now : Z;
  localTZA : Z -> Z;
  toLocaleDateString : Z -> string;
  toLocaleStringLongEnUS : Z -> string;
  toLocaleTimeString : Z -> string;
  execResult : list string -> string -> option JsError;
  showOkResult : option JsError
}.

(** What the action does to its surroundings: the commands handed to [exec],
    the lines sent to the logger (both oldest first), and how often the key
    was asked to show its OK mark. *)
Record World : Type := {
  executed : list string;
  logged : list (LogLevel * string);
  okShown : nat
}.

Definition emptyWorld : World :=
  {| executed := []; logged := []; okShown := 0 |}.

(** ** Computations that may throw *)

Definition M (A : Type) : Type := World -> (JsError + A) * World.

Definition ret {A} (a : A) : M A := fun w => (inr a, w).

Definition bind {A B} (c : M A) (k : A -> M B) : M B :=
  fun w =>
    match c w with
    | (inr a, w') => k a w'
    | (inl e, w') => (inl e, w')
    end.

Definition throw {A} (e : JsError) : M A := fun w => (inl e, w).

Definition tryCatch {A} (body : M A) (handler : JsError -> M A) : M A :=
  fun w =>
    match body w with
    | (inr a, w') => (inr a, w')
    | (inl e, w') => handler e w'
    end.

Declare Scope js_scope.
Delimit Scope js_scope with js.
Notation "c1 ;; c2" := (bind c1 (fun _ => c2))
  (at level 61, right associativity) : js_scope.

Definition log (level : LogLevel) (line : string) : M unit :=
  fun w =>
    (inr tt, {| executed := executed w;
                logged := logged w ++ [(level, line)];
                okShown := okShown w |}).

(** [await execAsync(cmd)] *)
Definition execAsync (h : Host) (cmd : string) : M unit :=
  fun w =>
    let w' := {| executed := executed w ++ [cmd];
                 logged := logged w;
                 okShown := okShown w |} in
    match execResult h (executed w) cmd with
    | None => (inr tt, w')
    | Some e => (inl e, w')
    end.

(** [await ev.action.showOk()] *)
Definition showOk (h : Host) : M unit :=
  fun w =>
    let w' := {| executed := executed w;
                 logged := logged w;
                 okShown := S (okShown w) |} in
    match showOkResult h with
    | None => (inr tt, w')
    | Some e => (inl e, w')
    end.

(** ** [getFormattedTimestamp] *)

Definition LocalTime (h : Host) (t : Z) : Z := t + localTZA h t.

Definition getFullYear (h : Host) (t : Z) : Z := YearFromTime (LocalTime h t).
Definition getMonth (h : Host) (t : Z) : Z := MonthFromTime (LocalTime h t).
Definition getDate (h : Host) (t : Z) : Z := DateFromTime (LocalTime h t).
Definition getHours (h : Host) (t : Z) : Z := HourFromTime (LocalTime h t).
Definition getMinutes (h : Host) (t : Z) : Z := MinFromTime (LocalTime h t).
Definition getSeconds (h : Host) (t : Z) : Z := SecFromTime (LocalTime h t).

Definition customTimestamp (h : Host) (t : Z) : string :=
  let year := getFullYear h t in
  let month := padStart 2 "0" (numberToString (getMonth h t + 1)) in
  let day := padStart 2 "0" (numberToString (getDate h t)) in
  let hours := padStart 2 "0" (numberToString (getHours h t)) in
  let minutes := padStart 2 "0" (numberToString (getMinutes h t)) in
  let seconds := padStart 2 "0" (numberToString (getSeconds h t)) in
  numberToString year ++ "-" ++ month ++ "-" ++ day ++ " " ++
  hours ++ "-" ++ minutes ++ "-" ++ seconds.

Definition getFormattedTimestamp (h : Host) (format : string) : string :=
  let now := now h in
  if String.eqb format "short" then toLocaleDateString h now
  else if String.eqb format "long" then toLocaleStringLongEnUS h now
  else if String.eqb format "time" then toLocaleTimeString h now
  else if String.eqb format "iso" then toISOString now
  else if String.eqb format "custom" then customTimestamp h now
  else toLocaleDateString h now.

(** ** [copyPasteText] *)

(** The five replacements of the Windows branch, in the order of the source. *)
Definition escapeWindows (text : string) : string :=
  replace "\" "\\"
    (replace "'" "''"
      (replace dquote (String "`" (String dquote EmptyString))
        (replace "$" "`$"
          (replace "`" "``" text)))).

Definition windowsCommand (escapedText : string) : string :=
  "powershell -command " ++ String dquote
    ("Set-Clipboard -Value '" ++ escapedText ++
     "'; Add-Type -AssemblyName System.Windows.Forms; [System.Windows.Forms.SendKeys]::SendWait('^v')"
     ++ String dquote EmptyString).

(** The replacement of the macOS and Linux branches: every double quote
    becomes a backslash and a double quote. *)
Definition escapeDoubleQuotes (text : string) : string :=
  replace dquote (String "\" (String dquote EmptyString)) text.

Definition echoInto (text sink : string) : string :=
  "echo -n " ++ String dquote (escapeDoubleQuotes text ++ String dquote (" | " ++ sink)).

Definition macClipboardCommand (text : string) : string := echoInto text "pbcopy".

Definition macScript : string :=
  "tell application " ++ String dquote ("System Events" ++ String dquote
  (" to keystroke " ++ String dquote ("v" ++ String dquote " using command down"))).

Definition macKeystrokeCommand : string := "osascript -e '" ++ macScript ++ "'".

Definition linuxClipboardCommand (text : string) : string :=
  echoInto text "xclip -selection clipboard".

Definition linuxKeystrokeCommand : string := "xdotool key ctrl+v".

Definition linuxErrorMessage : string :=
  "Linux support requires xclip/xdotool. Please install these utilities and try again.".

Local Open Scope js_scope.

Definition copyPasteText (h : Host) (text : string) : M unit :=
  if String.eqb (platform h) "win32" then
    tryCatch
      (log LogInfo "Inserting timestamp on Windows" ;;
       let escapedText := escapeWindows text in
       log LogInfo ("Escaped text: " ++ escapedText) ;;
       let command := windowsCommand escapedText in
       log LogInfo ("Running command: " ++ command) ;;
       execAsync h command)
      (fun error =>
         log LogError ("Error inserting timestamp on Windows: " ++ errorToString error) ;;
         throw {| message := "Error inserting timestamp on Windows: " ++ errorToString error |})
  else if String.eqb (platform h) "darwin" then
    tryCatch
      (execAsync h (macClipboardCommand text) ;;
       execAsync h macKeystrokeCommand)
      (fun error =>
         log LogError ("Error inserting timestamp on macOS: " ++ errorToString error) ;;
         throw {| message := "Error inserting timestamp on macOS: " ++ errorToString error |})
  else
    tryCatch
      (execAsync h (linuxClipboardCommand text) ;;
       execAsync h linuxKeystrokeCommand)
      (fun error =>
         log LogWarn "Linux support requires xclip/xdotool" ;;
         throw {| message := linuxErrorMessage |}).

(** ** [onKeyDown] *)

(** [ev.payload.settings?.format || "default"]: an absent settings object, an
    absent format and the empty string all give the text [default]. *)
Definition selectedFormat (ev : KeyDownEvent) : string :=
  match settings ev with
  | Some s =>
      match format s with
      | Some f => if String.eqb f "" then "default" else f
      | None => "default"
      end
  | None => "default"
  end.

Definition onKeyDown (h : Host) (ev : KeyDownEvent) : M unit :=
  tryCatch
    (let format := selectedFormat ev in
     let timestamp := getFormattedTimestamp h format in
     log LogInfo ("Got timestamp: " ++ timestamp ++ " (format: " ++ format ++ ")") ;;
     copyPasteText h timestamp ;;
     showOk h)
    (fun error => log LogError ("Error getting timestamp: " ++ errorToString error)).

(** ** [onDidReceiveSettings] *)

(** The part of a [DidReceiveSettingsEvent] the handler reads:
    [ev.payload.settings]. *)
Record DidReceiveSettingsEvent : Type := { newSettings : TimestampSettings }.

(** [`${ev.payload.settings.format}`]: an absent format prints as
    [undefined]. *)
Definition formatText (s : TimestampSettings) : string :=
  match format s with
  | Some f => f
  | None => "undefined"
  end.

Definition onDidReceiveSettings (ev : DidReceiveSettingsEvent) : M unit :=
  log LogInfo ("Settings changed: format = " ++ formatText (newSettings ev)).

End Plugin.

Import Js Shell Plugin.

(* ===================================================================== *)
(** * A sample host, and the vocabulary of the statements *)
(* ===================================================================== *)

Module Sample.

(** The renderings of an en-US host, on a local time value (spaces are
    plain spaces). *)
Definition monthNames : list string :=
  ["January"; "February"; "March"; "April"; "May"; "June"; "July";
   "August"; "September"; "October"; "November"; "December"].

Definition weekdayNames : list string :=
  ["Sunday"; "Monday"; "Tuesday"; "Wednesday"; "Thursday"; "Friday"; "Saturday"].

Definition shortDate (lt : Z) : string :=
  numberToString (MonthFromTime lt + 1) ++ "/" ++
  numberToString (DateFromTime lt) ++ "/" ++
  numberToString (YearFromTime lt).

Definition clockTime (lt : Z) : string :=
  let h := HourFromTime lt in
  numberToString (if h mod 12 =? 0 then 12 else h mod 12) ++ ":" ++
  padStart 2 "0" (numberToString (MinFromTime lt)) ++ ":" ++
  padStart 2 "0" (numberToString (SecFromTime lt)) ++
  (if h <? 12 then " AM" else " PM").

Definition longDate (lt : Z) : string :=
  nth (Z.to_nat (WeekDay lt)) weekdayNames "" ++ ", " ++
  nth (Z.to_nat (MonthFromTime lt)) monthNames "" ++ " " ++
  numberToString (DateFromTime lt) ++ ", " ++
  numberToString (YearFromTime lt) ++ " at " ++ clockTime lt.

(** An en-US host on [os] whose clock reads [t], whose zone is [tza]
    milliseconds east of UTC, and whose commands end as [run] says. *)
Definition host (os : string) (t tza : Z)
    (run : list string -> string -> option JsError) : Host :=
  {| platform := os;
     now := t;
     localTZA := fun _ => tza;
     toLocaleDateString := fun u => shortDate (u + tza);
     toLocaleStringLongEnUS := fun u => longDate (u + tza);
     toLocaleTimeString := fun u => clockTime (u + tza);
     execResult := run;
     showOkResult := None |}.

(** Every command succeeds. *)
Definition allSucceed : list string -> string -> option JsError :=
  fun _ _ => None.

(** Commands that mention [name] are not found; the others succeed. *)
Definition missing (name : string) : list string -> string -> option JsError :=
  fun _ cmd =>
    if includes name cmd
    then Some {| message := "Command failed: " ++ cmd ++ " /bin/sh: 1: " ++ name ++ ": not found" |}
    else None.

(** 2024-04-05T18:30:00Z, and a zone five hours west of UTC. *)
Definition instant : Z := 1712341800000.
Definition utcMinus5 : Z := -18000000.

(** The same host, on which the key rejects the request for its OK mark. *)
Definition hostRejectingOk (os : string) (t tza : Z)
    (run : list string -> string -> option JsError) (why : JsError) : Host :=
  {| platform := os;
     now := t;
     localTZA := fun _ => tza;
     toLocaleDateString := fun u => shortDate (u + tza);
     toLocaleStringLongEnUS := fun u => longDate (u + tza);
     toLocaleTimeString := fun u => clockTime (u + tza);
     execResult := run;
     showOkResult := Some why |}.

End Sample.

(** The branch of [copyPasteText] a host takes, and the name the branch
    gives its platform in its messages. *)
Inductive Branch : Type := Windows | MacOS | Linux.

Definition branchOf (h : Host) : Branch :=
  if String.eqb (platform h) "win32" then Windows
  else if String.eqb (platform h) "darwin" then MacOS
  else Linux.

Definition branchName (b : Branch) : string :=
  match b with
  | Windows => "Windows"
  | MacOS => "macOS"
  | Linux => "Linux"
  end.

(** The world after one more command, and after one more logged line. *)
Definition ran (cmd : string) (w : World) : World :=
  {| executed := executed w ++ [cmd]; logged := logged w; okShown := okShown w |}.

Definition wrote (level : LogLevel) (line : string) (w : World) : World :=
  {| executed := executed w; logged := logged w ++ [(level, line)]; okShown := okShown w |}.

(** The commands [cmds], run in this order after the commands [done], all
    exit with status zero. *)
Fixpoint allSucceeded (h : Host) (done cmds : list string) : Prop :=
  match cmds with
  | [] => True
  | cmd :: more => execResult h done cmd = None /\ allSucceeded h (done ++ [cmd]) more
  end.

(** The thrown error [e] and some line logged in [w'] both carry the name of
    the branch's platform and the text of the error [cause]. *)
Definition reportsCause (b : Branch) (cause e : JsError) (w' : World) : Prop :=
  includes (branchName b) (message e) = true
  /\ includes (message cause) (message e) = true
  /\ exists level line,
       In (level, line) (logged w')
       /\ includes (branchName b) line = true
       /\ includes (message cause) line = true.

(** Replacing every [pat] by the text [rep] taken as it stands. *)
Fixpoint substitute (pat : ascii) (rep : string) (s : string) : string :=
  match s with
  | EmptyString => EmptyString
  | String c rest =>
      if Ascii.eqb c pat then rep ++ substitute pat rep rest
      else String c (substitute pat rep rest)
  end.

Fixpoint forallChars (p : ascii -> bool) (s : string) : bool :=
  match s with
  | EmptyString => true
  | String c rest => p c && forallChars p rest
  end.

(** The characters the Windows branch escapes besides the single quote. *)
Definition escapedLikeDoubleQuoted (c : ascii) : bool :=
  Ascii.eqb c "`" || Ascii.eqb c "$" || Ascii.eqb c dquote || Ascii.eqb c "\".

(** The characters a POSIX shell treats specially inside double quotes,
    besides the double quote. *)
Definition specialInDoubleQuotes (c : ascii) : bool :=
  Ascii.eqb c "\" || Ascii.eqb c "$" || Ascii.eqb c "`".

(** What the Windows literal holds for a text: the text with the four
    replacements other than the doubling of single quotes. *)
Definition windowsLiteralValue (text : string) : string :=
  replace "\" "\\"
    (replace dquote (String "`" (String dquote EmptyString))
      (replace "$" "`$"
        (replace "`" "``" text))).

Definition afterWindowsLiteral : string :=
  "; Add-Type -AssemblyName System.Windows.Forms; [System.Windows.Forms.SendKeys]::SendWait('^v')"
  ++ String dquote EmptyString.

(** A text between double quotes. *)
Definition quoted (s : string) : string := String dquote (s ++ String dquote EmptyString).

(** The five characters the branch escapes, and the others. *)
Inductive WindowsChar (c : ascii) : Prop :=
  | IsBacktick : c = "`"%char -> WindowsChar c
  | IsDollar : c = "$"%char -> WindowsChar c
  | IsDquote : c = dquote -> WindowsChar c
  | IsQuote : c = "'"%char -> WindowsChar c
  | IsBackslash : c = "\"%char -> WindowsChar c
  | IsOther :
      Ascii.eqb c "`" = false -> Ascii.eqb c "$" = false ->
      Ascii.eqb c dquote = false -> Ascii.eqb c "'" = false ->
      Ascii.eqb c "\" = false -> WindowsChar c.

(** Writing [f c] for every character [c] of a text. *)
Fixpoint mapChars (f : ascii -> string) (s : string) : string :=
  match s with
  | EmptyString => EmptyString
  | String c rest => f c ++ mapChars f rest
  end.

(** What the Windows branch writes for one character. *)
Definition windowsEscapeChar (c : ascii) : string :=
  if Ascii.eqb c "`" then "``"
  else if Ascii.eqb c "$" then "`$"
  else if Ascii.eqb c dquote then String "`" (String dquote EmptyString)
  else if Ascii.eqb c "'" then "''"
  else if Ascii.eqb c "\" then "\\"
  else String c EmptyString.

(** The five characters the Windows branch replaces. *)
Definition replacedOnWindows (c : ascii) : bool :=
  Ascii.eqb c "`" || Ascii.eqb c "$" || Ascii.eqb c dquote
  || Ascii.eqb c "'" || Ascii.eqb c "\".

Fixpoint countChars (p : ascii -> bool) (s : string) : nat :=
  match s with
  | EmptyString => O
  | String c rest => ((if p c then 1 else 0) + countChars p rest)%nat
  end.

Definition consOption (c : ascii) (o : option string) : option string :=
  match o with
  | Some s => Some (String c s)
  | None => None
  end.

(** Reading back what [escapeWindows] wrote: a backtick announces a
    backtick, dollar sign or double quote, and single quotes and backslashes
    come in pairs. *)
Fixpoint unescapeWindows (s : string) : option string :=
  match s with
  | EmptyString => Some EmptyString
  | String c rest =>
      if Ascii.eqb c "`" then
        match rest with
        | String d rest' =>
            if Ascii.eqb d "`" || Ascii.eqb d "$" || Ascii.eqb d dquote
            then consOption d (unescapeWindows rest')
            else None
        | EmptyString => None
        end
      else if Ascii.eqb c "'" || Ascii.eqb c "\" then
        match rest with
        | String d rest' =>
            if Ascii.eqb d c then consOption c (unescapeWindows rest') else None
        | EmptyString => None
        end
      else if Ascii.eqb c "$" || Ascii.eqb c dquote then None
      else consOption c (unescapeWindows rest)
  end.

(** Reading back what [escapeDoubleQuotes] wrote: the character before a
    double quote is dropped. *)
Fixpoint unescapeDoubleQuotes (s : string) : string :=
  match s with
  | EmptyString => EmptyString
  | String c rest =>
      match rest with
      | String d rest' =>
          if Ascii.eqb d dquote then String d (unescapeDoubleQuotes rest')
          else String c (unescapeDoubleQuotes rest)
      | EmptyString => String c EmptyString
      end
  end.

(** The characters of the [iso] and [custom] timestamps. *)
Definition timestampChar (c : ascii) : bool :=
  existsb (Ascii.eqb c) (list_ascii_of_string "0123456789-+:. TZ").

(** The world [w] with the lines [before] at the head of its log. *)
Definition withEarlierLog (before : list (LogLevel * string)) (w : World) : World :=
  {| executed := executed w; logged := before ++ logged w; okShown := okShown w |}.

(** The text [ts] goes into the commands of the three branches as it stands,
    and both shells read it back as it stands. *)
Definition insertedVerbatim (ts : string) : Prop :=
  escapeWindows ts = ts
  /\ escapeDoubleQuotes ts = ts
  /\ firstSingleQuoted (windowsCommand (escapeWindows ts)) = Some (ts, afterWindowsLiteral)
  /\ forall sink : string, firstDoubleQuoted (echoInto ts sink) = Literal ts (" | " ++ sink).

(** The computation [c] does not look at the log: with more lines at the
    head of the log it returns, runs and asks the same, and leaves those
    lines at the head of the log. *)
Definition logBlind {A : Type} (c : M A) : Prop :=
  forall (before : list (LogLevel * string)) (w : World),
    c (withEarlierLog before w) = (fst (c w), withEarlierLog before (snd (c w))).

(** The first comparison, or the second where the first finds no
    difference. *)
Definition orElse (first second : comparison) : comparison :=
  match first with
  | Eq => second
  | _ => first
  end.

(** What a key press does once it has logged its first line. *)
Definition afterFirstLine (h : Host) (timestamp : string) : M unit :=
  tryCatch
    (bind (copyPasteText h timestamp) (fun _ => showOk h))
    (fun error => log LogError ("Error getting timestamp: " ++ errorToString error)).

(** What the macOS and Linux branches write for one character. *)
Definition posixEscapeChar (c : ascii) : string :=
  if Ascii.eqb c dquote then String "\" (String dquote EmptyString)
  else String c EmptyString.

(** The first command a branch runs to insert the text [text]. *)
Definition clipboardCommand (b : Branch) (text : string) : string :=
  match b with
  | Windows => windowsCommand (escapeWindows text)
  | MacOS => macClipboardCommand text
  | Linux => linuxClipboardCommand text
  end.

(** The days of a year before its month [m] (0 for January). *)
Definition daysBeforeMonth (m leap : Z) : Z :=
  match m with
  | 0 => 0
  | 1 => 31
  | 2 => 59 + leap
  | 3 => 90 + leap
  | 4 => 120 + leap
  | 5 => 151 + leap
  | 6 => 181 + leap
  | 7 => 212 + leap
  | 8 => 243 + leap
  | 9 => 273 + leap
  | 10 => 304 + leap
  | 11 => 334 + leap
  | _ => 365 + leap
  end.


(** Decimal digits. *)

Definition digit (d : Z) : ascii := ascii_of_nat (48 + Z.to_nat d).

Definition twoDigits (n : Z) : string :=
  String (digit (n / 10)) (String (digit (n mod 10)) EmptyString).

Definition threeDigits (n : Z) : string :=
  String (digit (n / 100)) (twoDigits (n mod 100)).

(* ===================================================================== *)
(** * Facts about the runtime model *)
(* ===================================================================== *)

Section Strings.

Lemma append_assoc (a b c : string) : (a ++ b) ++ c = a ++ b ++ c.
Proof. induction a as [| x a IH]; cbn; [reflexivity | now rewrite IH]. Qed.

Lemma length_append (a b : string) :
  String.length (a ++ b) = (String.length a + String.length b)%nat.
Proof. induction a as [| c a IH]; cbn; [reflexivity | now rewrite IH]. Qed.

End Strings.

Section DateArithmetic.

(** A year has the number of days [DaysInYear] says. *)
Lemma DayFromYear_step (y : Z) :
  DayFromYear (y + 1) - DayFromYear y = DaysInYear y.
Proof.
  unfold DayFromYear, DaysInYear.
  repeat match goal with
         | |- context [ (?a =? ?b) ] => destruct (Z.eqb_spec a b); cbn [negb]
         end;
  Z.div_mod_to_equations; lia.
Qed.

Lemma DaysInYear_cases (y : Z) : DaysInYear y = 365 \/ DaysInYear y = 366.
Proof.
  unfold DaysInYear.
  repeat match goal with
         | |- context [ (?a =? ?b) ] => destruct (Z.eqb_spec a b); cbn [negb]
         end; auto.
Qed.

(** [YearFromTime] meets ECMAScript's definition: its year starts at or
    before [t], and the next year starts after [t]. *)
Lemma YearFromTime_days (t : Z) :
  DayFromYear (YearFromTime t) <= Day t < DayFromYear (YearFromTime t + 1).
Proof.
  unfold YearFromTime.
  set (d := Day t).
  set (y := 1970 + 400 * d / 146097).
  assert (Hy : y = 1970 + 400 * d / 146097) by reflexivity.
  clearbody y. cbv zeta.
  destruct (Z.ltb_spec d (DayFromYear y)) as [Hlt | Hge].
  - replace (y - 1 + 1) with y by lia.
    split; [| exact Hlt].
    unfold DayFromYear in *. Z.div_mod_to_equations. lia.
  - destruct (Z.leb_spec (DayFromYear (y + 1)) d) as [Hle | Hlt].
    + split; [exact Hle |].
      unfold DayFromYear in *. Z.div_mod_to_equations. lia.
    + split; assumption.
Qed.

(** No later year starts at or before [t]. *)
Lemma YearFromTime_largest (t y : Z) :
  TimeFromYear y <= t -> y <= YearFromTime t.
Proof.
  intros Hy.
  pose proof (YearFromTime_days t) as [_ Hnext].
  assert (Hd : DayFromYear y <= Day t).
  { unfold TimeFromYear, Day, msPerDay in *. Z.div_mod_to_equations. lia. }
  destruct (Z.le_gt_cases y (YearFromTime t)) as [Hle | Hgt]; [exact Hle | exfalso].
  assert (Hmono : DayFromYear (YearFromTime t + 1) <= DayFromYear y).
  { unfold DayFromYear. Z.div_mod_to_equations. lia. }
  lia.
Qed.

Lemma YearFromTime_spec (t : Z) :
  TimeFromYear (YearFromTime t) <= t < TimeFromYear (YearFromTime t + 1).
Proof.
  pose proof (YearFromTime_days t) as H.
  unfold TimeFromYear, Day, msPerDay in *.
  Z.div_mod_to_equations. lia.
Qed.

Lemma DayWithinYear_range (t : Z) :
  0 <= DayWithinYear t < DaysInYear (YearFromTime t).
Proof.
  pose proof (YearFromTime_days t) as H.
  pose proof (DayFromYear_step (YearFromTime t)) as Hs.
  unfold DayWithinYear. lia.
Qed.

Lemma InLeapYear_days (t : Z) :
  DaysInYear (YearFromTime t) = 365 + InLeapYear t /\
  (InLeapYear t = 0 \/ InLeapYear t = 1).
Proof.
  unfold InLeapYear.
  destruct (DaysInYear_cases (YearFromTime t)) as [E | E]; rewrite E; cbn; lia.
Qed.

Ltac split_month :=
  repeat match goal with
         | |- context [ (?a <? ?b) ] => destruct (Z.ltb_spec a b)
         end.

Ltac next_month :=
  change (0 + 1) with 1;
  repeat match goal with
         | |- context [ Z.pos ?p + 1 ] =>
             let v := eval vm_compute in (Z.pos p + 1) in
             change (Z.pos p + 1) with v
         end.

Lemma MonthFromTime_range (t : Z) : 0 <= MonthFromTime t <= 11.
Proof. unfold MonthFromTime. cbv zeta. split_month; lia. Qed.

(** Month and day of the month are the calendar's: the day of the year is
    the days before the month plus the day of the month, which lies within
    the month. *)
Lemma DateFromTime_calendar (t : Z) :
  DayWithinYear t =
    daysBeforeMonth (MonthFromTime t) (InLeapYear t) + DateFromTime t - 1 /\
  1 <= DateFromTime t /\
  daysBeforeMonth (MonthFromTime t) (InLeapYear t) + DateFromTime t - 1
    < daysBeforeMonth (MonthFromTime t + 1) (InLeapYear t).
Proof.
  pose proof (DayWithinYear_range t) as Hr.
  destruct (InLeapYear_days t) as [Hd Hl].
  unfold DateFromTime, MonthFromTime. cbv zeta.
  split_month; next_month; cbn [daysBeforeMonth]; lia.
Qed.

Lemma DateFromTime_range (t : Z) : 1 <= DateFromTime t <= 31.
Proof.
  pose proof (DayWithinYear_range t) as Hr.
  destruct (InLeapYear_days t) as [Hd Hl].
  unfold DateFromTime, MonthFromTime. cbv zeta.
  split_month; lia.
Qed.

Lemma HourFromTime_range (t : Z) : 0 <= HourFromTime t <= 23.
Proof. unfold HourFromTime. pose proof (Z.mod_pos_bound (t / msPerHour) 24). lia. Qed.

Lemma MinFromTime_range (t : Z) : 0 <= MinFromTime t <= 59.
Proof. unfold MinFromTime. pose proof (Z.mod_pos_bound (t / msPerMinute) 60). lia. Qed.

Lemma SecFromTime_range (t : Z) : 0 <= SecFromTime t <= 59.
Proof. unfold SecFromTime. pose proof (Z.mod_pos_bound (t / msPerSecond) 60). lia. Qed.

Lemma msFromTime_range (t : Z) : 0 <= msFromTime t <= 999.
Proof. unfold msFromTime, msPerSecond. pose proof (Z.mod_pos_bound t 1000). lia. Qed.

(** A time value is the start of its day plus its hours, minutes, seconds
    and milliseconds, and its day is the start of its year plus the day of
    the year. *)
Lemma time_value_decomposition (t : Z) :
  t = (DayFromYear (YearFromTime t) + DayWithinYear t) * msPerDay
      + HourFromTime t * msPerHour + MinFromTime t * msPerMinute
      + SecFromTime t * msPerSecond + msFromTime t.
Proof.
  unfold DayWithinYear, Day, HourFromTime, MinFromTime, SecFromTime, msFromTime,
    msPerDay, msPerHour, msPerMinute, msPerSecond.
  Z.div_mod_to_equations. lia.
Qed.

End DateArithmetic.

(** ** Decimal digits *)

Section Digits.

(** A property checked on each number of a range holds on the range. *)
Lemma checked_on_range (P : Z -> bool) (lo hi : Z) :
  forallb (fun k => P (lo + Z.of_nat k)) (seq 0 (Z.to_nat (hi - lo))) = true ->
  forall n, lo <= n < hi -> P n = true.
Proof.
  intros Hall n Hn.
  rewrite forallb_forall in Hall.
  specialize (Hall (Z.to_nat (n - lo))).
  replace (lo + Z.of_nat (Z.to_nat (n - lo))) with n in Hall by lia.
  apply Hall. apply in_seq. lia.
Qed.

Lemma padStart_two_digits (n : Z) :
  0 <= n <= 99 -> padStart 2 "0" (numberToString n) = twoDigits n.
Proof.
  intros Hn. apply String.eqb_eq.
  apply (checked_on_range
           (fun n => String.eqb (padStart 2 "0" (numberToString n)) (twoDigits n))
           0 100); [vm_compute; reflexivity | lia].
Qed.

Lemma padStart_three_digits (n : Z) :
  0 <= n <= 999 -> padStart 3 "0" (numberToString n) = threeDigits n.
Proof.
  intros Hn. apply String.eqb_eq.
  apply (checked_on_range
           (fun n => String.eqb (padStart 3 "0" (numberToString n)) (threeDigits n))
           0 1000); [vm_compute; reflexivity | lia].
Qed.

Lemma four_digit_year (n : Z) :
  1000 <= n <= 9999 -> String.length (numberToString n) = 4%nat.
Proof.
  intros Hn. apply Nat.eqb_eq.
  apply (checked_on_range
           (fun n => Nat.eqb (String.length (numberToString n)) 4)
           1000 10000); [vm_compute; reflexivity | lia].
Qed.

End Digits.

(* ===================================================================== *)
(** * Formatting the timestamp *)
(* ===================================================================== *)

(** Two texts the comparison tells apart are different. *)
Lemma differ (a b : string) : String.eqb a b = false -> a <> b.
Proof. apply String.eqb_neq. Qed.

Section Formatting.

Variable h : Host.

Lemma selector_short : getFormattedTimestamp h "short" = toLocaleDateString h (now h).
Proof. reflexivity. Qed.

Lemma selector_iso : getFormattedTimestamp h "iso" = toISOString (now h).
Proof. reflexivity. Qed.

Lemma selector_custom : getFormattedTimestamp h "custom" = customTimestamp h (now h).
Proof. reflexivity. Qed.

(** A selector that is none of the four others takes the [short] or the
    [default] arm of the [switch], which are the same. *)
Lemma selector_other (f : string) :
  f <> "long" -> f <> "time" -> f <> "iso" -> f <> "custom" ->
  getFormattedTimestamp h f = toLocaleDateString h (now h).
Proof.
  intros Hl Ht Hi Hc. unfold getFormattedTimestamp.
  apply String.eqb_neq in Hl, Ht, Hi, Hc.
  rewrite Hl, Ht, Hi, Hc.
  destruct (String.eqb f "short"); reflexivity.
Qed.

Lemma customTimestamp_digits (t : Z) :
  customTimestamp h t =
    numberToString (getFullYear h t) ++ "-" ++
    twoDigits (getMonth h t + 1) ++ "-" ++ twoDigits (getDate h t) ++ " " ++
    twoDigits (getHours h t) ++ "-" ++ twoDigits (getMinutes h t) ++ "-" ++
    twoDigits (getSeconds h t).
Proof.
  unfold customTimestamp, getMonth, getDate, getHours, getMinutes, getSeconds.
  cbv zeta.
  pose proof (MonthFromTime_range (LocalTime h t)).
  pose proof (DateFromTime_range (LocalTime h t)).
  pose proof (HourFromTime_range (LocalTime h t)).
  pose proof (MinFromTime_range (LocalTime h t)).
  pose proof (SecFromTime_range (LocalTime h t)).
  rewrite !padStart_two_digits by lia.
  reflexivity.
Qed.

Lemma toISOString_digits (t : Z) :
  toISOString t =
    isoYear (YearFromTime t) ++ "-" ++
    twoDigits (MonthFromTime t + 1) ++ "-" ++ twoDigits (DateFromTime t) ++ "T" ++
    twoDigits (HourFromTime t) ++ ":" ++ twoDigits (MinFromTime t) ++ ":" ++
    twoDigits (SecFromTime t) ++ "." ++ threeDigits (msFromTime t) ++ "Z".
Proof.
  unfold toISOString.
  pose proof (MonthFromTime_range t).
  pose proof (DateFromTime_range t).
  pose proof (HourFromTime_range t).
  pose proof (MinFromTime_range t).
  pose proof (SecFromTime_range t).
  pose proof (msFromTime_range t).
  rewrite !padStart_two_digits, padStart_three_digits by lia.
  reflexivity.
Qed.

End Formatting.

(** C6. For every instant, the selector [custom] gives the local year, a
    hyphen, the local month and day of the month as two digits each with a
    hyphen between them, a space, and the local hours, minutes and seconds as
    two digits each with hyphens between them; the month is from 1 to 12, the
    day from 1 to 31, the hours from 0 to 23, the minutes and seconds from 0
    to 59, and with a year of four digits the text has 19 characters.  At
    2024-04-05T18:30:00Z in a zone five hours west of UTC the text is
    2024-04-05 13-30-00. *)
Theorem custom_selector_layout :
  (forall h : Host,
     let t := now h in
     getFormattedTimestamp h "custom" =
       numberToString (getFullYear h t) ++ "-" ++
       twoDigits (getMonth h t + 1) ++ "-" ++ twoDigits (getDate h t) ++ " " ++
       twoDigits (getHours h t) ++ "-" ++ twoDigits (getMinutes h t) ++ "-" ++
       twoDigits (getSeconds h t)
     /\ 1 <= getMonth h t + 1 <= 12
     /\ 1 <= getDate h t <= 31
     /\ 0 <= getHours h t <= 23
     /\ 0 <= getMinutes h t <= 59
     /\ 0 <= getSeconds h t <= 59
     /\ (1000 <= getFullYear h t <= 9999 ->
         String.length (getFormattedTimestamp h "custom") = 19%nat))
  /\ (forall h : Host,
        now h = 1712341800000 ->
        localTZA h 1712341800000 = -18000000 ->
        getFormattedTimestamp h "custom" = "2024-04-05 13-30-00").
Proof.
  split.
  - intros h t.
    pose proof (MonthFromTime_range (LocalTime h t)) as Hmo.
    pose proof (DateFromTime_range (LocalTime h t)) as Hd.
    pose proof (HourFromTime_range (LocalTime h t)) as Hh.
    pose proof (MinFromTime_range (LocalTime h t)) as Hmi.
    pose proof (SecFromTime_range (LocalTime h t)) as Hs.
    rewrite selector_custom. fold t. rewrite customTimestamp_digits.
    unfold getMonth, getDate, getHours, getMinutes, getSeconds.
    repeat split; try lia.
    intros Hy. rewrite length_append, (four_digit_year _ Hy). reflexivity.
  - intros h Hnow Htz.
    rewrite selector_custom.
    unfold customTimestamp, getFullYear, getMonth, getDate, getHours,
      getMinutes, getSeconds, LocalTime.
    rewrite Hnow, Htz. vm_compute. reflexivity.
Qed.

(** C8. For every instant, the selector [iso] gives the rendering of
    [toISOString]: the UTC year, month and day of the month joined by
    hyphens, the letter T, the UTC hours, minutes and seconds as two digits
    each joined by colons, a point, the milliseconds as three digits and the
    letter Z, whatever the zone and the locale of the host.  At
    2024-04-05T18:30:00Z the text is 2024-04-05T18:30:00.000Z. *)
Theorem iso_selector_layout :
  (forall h : Host,
     let t := now h in
     getFormattedTimestamp h "iso" =
       isoYear (YearFromTime t) ++ "-" ++
       twoDigits (MonthFromTime t + 1) ++ "-" ++ twoDigits (DateFromTime t) ++ "T" ++
       twoDigits (HourFromTime t) ++ ":" ++ twoDigits (MinFromTime t) ++ ":" ++
       twoDigits (SecFromTime t) ++ "." ++ threeDigits (msFromTime t) ++ "Z"
     /\ 1 <= MonthFromTime t + 1 <= 12
     /\ 1 <= DateFromTime t <= 31
     /\ 0 <= HourFromTime t <= 23
     /\ 0 <= MinFromTime t <= 59
     /\ 0 <= SecFromTime t <= 59
     /\ 0 <= msFromTime t <= 999
     /\ t = (DayFromYear (YearFromTime t) + DayWithinYear t) * msPerDay
            + HourFromTime t * msPerHour + MinFromTime t * msPerMinute
            + SecFromTime t * msPerSecond + msFromTime t
     /\ DayWithinYear t =
          daysBeforeMonth (MonthFromTime t) (InLeapYear t) + DateFromTime t - 1)
  /\ (forall h : Host,
        now h = 1712341800000 ->
        getFormattedTimestamp h "iso" = "2024-04-05T18:30:00.000Z").
Proof.
  split.
  - intros h t.
    pose proof (MonthFromTime_range t) as Hmo.
    pose proof (DateFromTime_range t) as Hd.
    pose proof (HourFromTime_range t) as Hh.
    pose proof (MinFromTime_range t) as Hmi.
    pose proof (SecFromTime_range t) as Hs.
    pose proof (msFromTime_range t) as Hms.
    pose proof (DateFromTime_calendar t) as (Hcal & _ & _).
    rewrite selector_iso. fold t. rewrite toISOString_digits.
    repeat split; try lia.
    apply time_value_decomposition.
  - intros h Hnow. rewrite selector_iso, Hnow. vm_compute. reflexivity.
Qed.

(** C7. For every instant, a selector that is none of [long], [time], [iso]
    and [custom] gives the text the selector [short] gives, and so does an
    absent selector (no settings, or settings without a format): the short
    date of the host's locale.  The function returns a text in every case. *)
Theorem unknown_selector_is_short (h : Host) (f : string) :
  f <> "long" -> f <> "time" -> f <> "iso" -> f <> "custom" ->
  getFormattedTimestamp h f = getFormattedTimestamp h "short"
  /\ getFormattedTimestamp h (selectedFormat {| settings := None |})
     = getFormattedTimestamp h "short"
  /\ getFormattedTimestamp h (selectedFormat {| settings := Some {| format := None |} |})
     = getFormattedTimestamp h "short"
  /\ getFormattedTimestamp h "short" = toLocaleDateString h (now h).
Proof.
  intros Hl Ht Hi Hc.
  rewrite (selector_other h f Hl Ht Hi Hc).
  repeat split; reflexivity.
Qed.

(** The selector [verbose] on the sample host gives the short date. *)
Lemma unknown_selector_is_short_witness :
  getFormattedTimestamp
    (Sample.host "linux" Sample.instant Sample.utcMinus5 Sample.allSucceed) "verbose"
  = "4/5/2024"
  /\ getFormattedTimestamp
       (Sample.host "linux" Sample.instant Sample.utcMinus5 Sample.allSucceed) "short"
     = "4/5/2024".
Proof.
  destruct (unknown_selector_is_short
              (Sample.host "linux" Sample.instant Sample.utcMinus5 Sample.allSucceed)
              "verbose"
              (differ "verbose" "long" eq_refl) (differ "verbose" "time" eq_refl)
              (differ "verbose" "iso" eq_refl) (differ "verbose" "custom" eq_refl))
    as (H1 & _ & _ & _).
  rewrite H1. split; vm_compute; reflexivity.
Defined.


(* ===================================================================== *)
(** * Inserting the text *)
(* ===================================================================== *)

Ltac unfold_js :=
  unfold onKeyDown, copyPasteText, tryCatch, bind, execAsync, showOk, log, throw, ret,
    ran, wrote.

Section Inserting.

Variable h : Host.
Variable text : string.
Variable w : World.

(** The Windows branch runs one command. *)
Lemma copyPasteText_windows :
  branchOf h = Windows ->
  let command := windowsCommand (escapeWindows text) in
  let w1 := wrote LogInfo ("Running command: " ++ command)
              (wrote LogInfo ("Escaped text: " ++ escapeWindows text)
                 (wrote LogInfo "Inserting timestamp on Windows" w)) in
  copyPasteText h text w =
    match execResult h (executed w) command with
    | None => (inr tt, ran command w1)
    | Some cause =>
        let line := "Error inserting timestamp on Windows: " ++ errorToString cause in
        (inl {| message := line |}, wrote LogError line (ran command w1))
    end.
Proof.
  unfold branchOf. intros Hb. unfold_js.
  destruct (String.eqb (platform h) "win32"); [| destruct (String.eqb (platform h) "darwin"); discriminate].
  cbn. destruct (execResult h (executed w) _); reflexivity.
Qed.

(** The macOS branch runs the clipboard command, and the keystroke command
    once the first has succeeded. *)
Lemma copyPasteText_macos :
  branchOf h = MacOS ->
  let failed (cause : JsError) (w' : World) :=
    let line := "Error inserting timestamp on macOS: " ++ errorToString cause in
    (@inl JsError unit {| message := line |}, wrote LogError line w') in
  copyPasteText h text w =
    match execResult h (executed w) (macClipboardCommand text) with
    | Some cause => failed cause (ran (macClipboardCommand text) w)
    | None =>
        let w1 := ran macKeystrokeCommand (ran (macClipboardCommand text) w) in
        match execResult h (executed w ++ [macClipboardCommand text]) macKeystrokeCommand with
        | Some cause => failed cause w1
        | None => (inr tt, w1)
        end
    end.
Proof.
  unfold branchOf. intros Hb. unfold_js.
  destruct (String.eqb (platform h) "win32"); [discriminate |].
  destruct (String.eqb (platform h) "darwin"); [| discriminate].
  cbn. destruct (execResult h (executed w) _); [reflexivity |].
  cbn. destruct (execResult h _ _); reflexivity.
Qed.

(** The Linux branch does the same with its two commands, and answers every
    failure with the same message. *)
Lemma copyPasteText_linux :
  branchOf h = Linux ->
  let failed (w' : World) :=
    (@inl JsError unit {| message := linuxErrorMessage |},
     wrote LogWarn "Linux support requires xclip/xdotool" w') in
  copyPasteText h text w =
    match execResult h (executed w) (linuxClipboardCommand text) with
    | Some _ => failed (ran (linuxClipboardCommand text) w)
    | None =>
        let w1 := ran linuxKeystrokeCommand (ran (linuxClipboardCommand text) w) in
        match execResult h (executed w ++ [linuxClipboardCommand text]) linuxKeystrokeCommand with
        | Some _ => failed w1
        | None => (inr tt, w1)
        end
    end.
Proof.
  unfold branchOf. intros Hb. unfold_js.
  destruct (String.eqb (platform h) "win32"); [discriminate |].
  destruct (String.eqb (platform h) "darwin"); [discriminate |].
  cbn. destruct (execResult h (executed w) _); [reflexivity |].
  cbn. destruct (execResult h _ _); reflexivity.
Qed.

(** Inserting the text never touches the OK mark. *)
Lemma copyPasteText_okShown : okShown (snd (copyPasteText h text w)) = okShown w.
Proof.
  destruct (branchOf h) eqn:Hb.
  - rewrite (copyPasteText_windows Hb). cbv zeta.
    destruct (execResult h _ _); reflexivity.
  - rewrite (copyPasteText_macos Hb). cbv zeta.
    destruct (execResult h _ _); [reflexivity |].
    destruct (execResult h _ _); reflexivity.
  - rewrite (copyPasteText_linux Hb). cbv zeta.
    destruct (execResult h _ _); [reflexivity |].
    destruct (execResult h _ _); reflexivity.
Qed.

End Inserting.

Lemma branchOf_linux (h : Host) :
  platform h <> "win32" -> platform h <> "darwin" -> branchOf h = Linux.
Proof.
  intros Hw Hd. unfold branchOf.
  apply String.eqb_neq in Hw, Hd. now rewrite Hw, Hd.
Qed.

(** C3. On Linux, when the clipboard command (the pipe into xclip) is not
    found or fails, [copyPasteText] throws an error whose message names
    xclip, after logging a warning; the only command it has run is the
    clipboard command, so the xdotool command is not run. *)
Theorem linux_clipboard_failure_stops_before_keystroke
    (h : Host) (text : string) (w : World) (cause : JsError) :
  platform h <> "win32" ->
  platform h <> "darwin" ->
  execResult h (executed w) (linuxClipboardCommand text) = Some cause ->
  copyPasteText h text w =
    (inl {| message := linuxErrorMessage |},
     {| executed := executed w ++ [linuxClipboardCommand text];
        logged := logged w ++ [(LogWarn, "Linux support requires xclip/xdotool")];
        okShown := okShown w |})
  /\ includes "xclip" linuxErrorMessage = true
  /\ ~ In linuxKeystrokeCommand [linuxClipboardCommand text].
Proof.
  intros Hw Hd Hfail.
  rewrite (copyPasteText_linux h text w (branchOf_linux h Hw Hd)). cbv zeta.
  rewrite Hfail.
  split; [reflexivity |].
  split; [vm_compute; reflexivity |].
  intros [Heq | []]. discriminate Heq.
Qed.

(** The sample Linux host without xclip. *)
Lemma linux_clipboard_failure_stops_before_keystroke_witness :
  copyPasteText
    (Sample.host "linux" Sample.instant Sample.utcMinus5 (Sample.missing "xclip"))
    "4/5/2024" emptyWorld
  = (inl {| message := linuxErrorMessage |},
     {| executed := [linuxClipboardCommand "4/5/2024"];
        logged := [(LogWarn, "Linux support requires xclip/xdotool")];
        okShown := 0 |}).
Proof.
  apply (linux_clipboard_failure_stops_before_keystroke
           (Sample.host "linux" Sample.instant Sample.utcMinus5 (Sample.missing "xclip"))
           "4/5/2024" emptyWorld
           {| message := "Command failed: " ++ linuxClipboardCommand "4/5/2024"
                         ++ " /bin/sh: 1: xclip: not found" |}
           (differ "linux" "win32" eq_refl) (differ "linux" "darwin" eq_refl)).
  vm_compute. reflexivity.
Defined.

(** C4. A key press always completes without an error.  When
    [copyPasteText] succeeds the key is asked to show its OK mark exactly
    once; when it throws, the key is not asked, and the only thing the handler
    adds is the logged error line. *)
Theorem key_press_acknowledges_success_only (h : Host) (ev : KeyDownEvent) (w : World) :
  let format := selectedFormat ev in
  let timestamp := getFormattedTimestamp h format in
  let w0 := wrote LogInfo ("Got timestamp: " ++ timestamp ++ " (format: " ++ format ++ ")") w in
  fst (onKeyDown h ev w) = inr tt
  /\ match copyPasteText h timestamp w0 with
     | (inr _, w1) =>
         okShown (snd (onKeyDown h ev w)) = S (okShown w)
         /\ executed (snd (onKeyDown h ev w)) = executed w1
     | (inl e, w1) =>
         okShown (snd (onKeyDown h ev w)) = okShown w
         /\ snd (onKeyDown h ev w)
            = wrote LogError ("Error getting timestamp: " ++ errorToString e) w1
     end.
Proof.
  intros format timestamp w0.
  pose proof (copyPasteText_okShown h timestamp w0) as Hok.
  unfold onKeyDown, tryCatch, bind, showOk.
  change (log LogInfo ("Got timestamp: " ++ getFormattedTimestamp h (selectedFormat ev)
                       ++ " (format: " ++ selectedFormat ev ++ ")") w)
    with (@inr JsError unit tt, w0).
  cbv iota beta. fold format timestamp.
  destruct (copyPasteText h timestamp w0) as [[e | []] w1]; cbn [snd fst] in *.
  - split; [reflexivity |]. cbn. split; [exact Hok | reflexivity].
  - destruct (showOkResult h); cbn; rewrite Hok; auto.
Qed.

(** ** Failures of the external commands *)

Section Includes.

Lemma prefix_append (a b : string) : String.prefix a (a ++ b) = true.
Proof.
  induction a as [| c a IH]; cbn.
  - destruct b; reflexivity.
  - destruct (ascii_dec c c) as [_ | Hne]; [exact IH | contradiction].
Qed.

Lemma includes_append (needle a b : string) :
  includes needle b = true -> includes needle (a ++ b) = true.
Proof.
  intros Hb. induction a as [| c a IH]; cbn [append]; [exact Hb |].
  cbn [includes]. rewrite IH. apply orb_true_r.
Qed.

Lemma includes_here (needle b : string) : includes needle (needle ++ b) = true.
Proof.
  destruct needle as [| c n]; [destruct b; reflexivity |].
  cbn [append includes]. fold (append n b).
  change (String c (n ++ b)) with (String c n ++ b).
  rewrite prefix_append. reflexivity.
Qed.

Lemma includes_errorToString (cause : JsError) (a : string) :
  includes (message cause) (a ++ errorToString cause) = true.
Proof.
  apply includes_append. unfold errorToString.
  destruct (String.eqb_spec (message cause) "") as [E | _].
  - rewrite E. reflexivity.
  - apply (includes_append _ "Error: "). rewrite <- (includes_here (message cause) "") at 1.
    f_equal. clear. induction (message cause) as [| c m IH]; cbn; [reflexivity | now rewrite <- IH].
Qed.

End Includes.

Lemma reportsCause_wrapped (b : Branch) (cause : JsError) (w0 : World) :
  let line := "Error inserting timestamp on " ++ branchName b ++ ": "
              ++ errorToString cause in
  reportsCause b cause {| message := line |} (wrote LogError line w0).
Proof.
  intros line.
  assert (Hname : includes (branchName b) line = true).
  { apply (includes_append _ "Error inserting timestamp on "). apply includes_here. }
  assert (Hcause : includes (message cause) line = true).
  { unfold line. apply includes_append.
    replace (branchName b ++ ": " ++ errorToString cause)
      with ((branchName b ++ ": ") ++ errorToString cause)
      by (destruct b; reflexivity).
    apply includes_errorToString. }
  split; [exact Hname |]. split; [exact Hcause |].
  exists LogError, line. split; [| split; assumption].
  cbn. apply in_or_app. right. left. reflexivity.
Qed.

(** C5, as the code has it.  Whenever [copyPasteText] throws, the last
    command it ran is one that failed, after commands that succeeded.  On the
    Windows and macOS branches the error thrown has the message
    [Error inserting timestamp on <platform>: <error>], the same line is the
    last one logged, at the error level, and so both carry the platform's name
    and the text of the underlying error.  On the Linux branch the error has
    the fixed message [linuxErrorMessage] and the line logged, at the warning
    level, is [Linux support requires xclip/xdotool].  Whenever
    [copyPasteText] returns, every command it ran succeeded. *)
Theorem failure_report_per_branch (h : Host) (text : string) (w : World) :
  match copyPasteText h text w with
  | (inr _, w') =>
      exists cmds,
        executed w' = (executed w ++ cmds)%list /\ allSucceeded h (executed w) cmds
  | (inl e, w') =>
      exists before cmd cause,
        executed w' = (executed w ++ before ++ [cmd])%list
        /\ allSucceeded h (executed w) before
        /\ execResult h (executed w ++ before)%list cmd = Some cause
        /\ match branchOf h with
           | Linux =>
               message e = linuxErrorMessage
               /\ logged w' = (logged w ++ [(LogWarn, "Linux support requires xclip/xdotool")])%list
           | b =>
               message e = "Error inserting timestamp on " ++ branchName b ++ ": "
                           ++ errorToString cause
               /\ (exists earlier, logged w' = (earlier ++ [(LogError, message e)])%list)
               /\ reportsCause b cause e w'
           end
  end.
Proof.
  destruct (branchOf h) eqn:Hb.
  - rewrite (copyPasteText_windows h text w Hb). cbv zeta.
    destruct (execResult h (executed w) _) as [cause |] eqn:Hrun.
    + exists [], (windowsCommand (escapeWindows text)), cause.
      rewrite app_nil_r. cbn [app allSucceeded].
      split; [reflexivity |]. split; [exact I |]. split; [exact Hrun |].
      split; [reflexivity |]. split; [eexists; reflexivity |].
      apply (reportsCause_wrapped Windows).
    + exists [windowsCommand (escapeWindows text)]. cbn. auto.
  - rewrite (copyPasteText_macos h text w Hb). cbv zeta.
    destruct (execResult h (executed w) _) as [cause |] eqn:Hrun.
    + exists [], (macClipboardCommand text), cause.
      rewrite app_nil_r. cbn [app allSucceeded].
      split; [reflexivity |]. split; [exact I |]. split; [exact Hrun |].
      split; [reflexivity |]. split; [eexists; reflexivity |].
      apply (reportsCause_wrapped MacOS).
    + destruct (execResult h (executed w ++ _) _) as [cause |] eqn:Hrun2.
      * exists [macClipboardCommand text], macKeystrokeCommand, cause.
        cbn [app allSucceeded].
        split; [cbn; now rewrite <- app_assoc |].
        split; [auto |]. split; [exact Hrun2 |].
        split; [reflexivity |]. split; [eexists; reflexivity |].
        apply (reportsCause_wrapped MacOS).
      * exists [macClipboardCommand text; macKeystrokeCommand].
        cbn [app allSucceeded ran executed]. rewrite <- app_assoc. auto.
  - rewrite (copyPasteText_linux h text w Hb). cbv zeta.
    destruct (execResult h (executed w) _) as [cause |] eqn:Hrun.
    + exists [], (linuxClipboardCommand text), cause.
      rewrite app_nil_r. cbn [app allSucceeded]. auto.
    + destruct (execResult h (executed w ++ _) _) as [cause |] eqn:Hrun2.
      * exists [linuxClipboardCommand text], linuxKeystrokeCommand, cause.
        cbn [app allSucceeded ran wrote executed logged].
        rewrite <- app_assoc. auto.
      * exists [linuxClipboardCommand text; linuxKeystrokeCommand].
        cbn [app allSucceeded ran executed]. rewrite <- app_assoc. auto.
Qed.

(** C5, as stated, fails on the Linux branch: with xclip missing, the error
    thrown and the line logged carry neither the text of the error [exec]
    reported. *)
Lemma linux_failure_hides_cause :
  execResult (Sample.host "linux" Sample.instant Sample.utcMinus5 (Sample.missing "xclip"))
    [] (linuxClipboardCommand "4/5/2024")
  = Some {| message := "Command failed: " ++ linuxClipboardCommand "4/5/2024"
                       ++ " /bin/sh: 1: xclip: not found" |}
  /\ copyPasteText
       (Sample.host "linux" Sample.instant Sample.utcMinus5 (Sample.missing "xclip"))
       "4/5/2024" emptyWorld
     = (inl {| message := linuxErrorMessage |},
        {| executed := [linuxClipboardCommand "4/5/2024"];
           logged := [(LogWarn, "Linux support requires xclip/xdotool")];
           okShown := 0 |})
  /\ ~ reportsCause Linux
         {| message := "Command failed: " ++ linuxClipboardCommand "4/5/2024"
                       ++ " /bin/sh: 1: xclip: not found" |}
         {| message := linuxErrorMessage |}
         {| executed := [linuxClipboardCommand "4/5/2024"];
            logged := [(LogWarn, "Linux support requires xclip/xdotool")];
            okShown := 0 |}.
Proof.
  split; [vm_compute; reflexivity |].
  split; [vm_compute; reflexivity |].
  intros (_ & Hcause & _). vm_compute in Hcause. discriminate Hcause.
Qed.

(** ** The order of the two steps *)

Lemma windowsCommand_script (escapedText : string) :
  windowsCommand escapedText =
    "powershell -command " ++ String dquote
      (String.concat "; "
         ["Set-Clipboard -Value '" ++ escapedText ++ "'";
          "Add-Type -AssemblyName System.Windows.Forms";
          "[System.Windows.Forms.SendKeys]::SendWait('^v')"]
       ++ String dquote EmptyString).
Proof.
  unfold windowsCommand. cbn [String.concat].
  do 2 f_equal. rewrite !append_assoc. reflexivity.
Qed.

(** C9. On the macOS and Linux branches the commands [copyPasteText] runs
    are the clipboard command and then, only when the clipboard command has
    exited with status zero, the keystroke command; nothing runs after a
    failure.  On the Windows branch it runs one PowerShell command, whose
    script has the Set-Clipboard statement first and the SendKeys statement
    last. *)
Theorem clipboard_write_precedes_keystroke (h : Host) (text : string) (w : World) :
  let after := executed (snd (copyPasteText h text w)) in
  match branchOf h with
  | Windows =>
      after = (executed w ++ [windowsCommand (escapeWindows text)])%list
      /\ windowsCommand (escapeWindows text) =
           "powershell -command " ++ String dquote
             (String.concat "; "
                ["Set-Clipboard -Value '" ++ escapeWindows text ++ "'";
                 "Add-Type -AssemblyName System.Windows.Forms";
                 "[System.Windows.Forms.SendKeys]::SendWait('^v')"]
              ++ String dquote EmptyString)
  | MacOS =>
      match execResult h (executed w) (macClipboardCommand text) with
      | None => after = (executed w ++ [macClipboardCommand text; macKeystrokeCommand])%list
      | Some _ => after = (executed w ++ [macClipboardCommand text])%list
      end
  | Linux =>
      match execResult h (executed w) (linuxClipboardCommand text) with
      | None => after = (executed w ++ [linuxClipboardCommand text; linuxKeystrokeCommand])%list
      | Some _ => after = (executed w ++ [linuxClipboardCommand text])%list
      end
  end.
Proof.
  intros after. subst after.
  destruct (branchOf h) eqn:Hb.
  - rewrite (copyPasteText_windows h text w Hb). cbv zeta.
    split; [| apply windowsCommand_script].
    destruct (execResult h (executed w) _); reflexivity.
  - rewrite (copyPasteText_macos h text w Hb). cbv zeta.
    destruct (execResult h (executed w) _); [reflexivity |].
    destruct (execResult h _ _); cbn; now rewrite <- app_assoc.
  - rewrite (copyPasteText_linux h text w Hb). cbv zeta.
    destruct (execResult h (executed w) _); [reflexivity |].
    destruct (execResult h _ _); cbn; now rewrite <- app_assoc.
Qed.

(* ===================================================================== *)
(** * Quoting the text for the shell *)
(* ===================================================================== *)

Section Replace.

Lemma replaceFrom_literal (pat : ascii) (rep : string) :
  (forall matched before after, getSubstitution matched before after rep = rep) ->
  forall s seen, replaceFrom pat rep seen s = substitute pat rep s.
Proof.
  intros Hrep s. induction s as [| c s IH]; intros seen; cbn; [reflexivity |].
  rewrite IH, Hrep. reflexivity.
Qed.

Lemma replace_literal (pat : ascii) (rep : string) :
  (forall matched before after, getSubstitution matched before after rep = rep) ->
  forall s, replace pat rep s = substitute pat rep s.
Proof. intros Hrep s. apply replaceFrom_literal, Hrep. Qed.

Lemma substitute_app (pat : ascii) (rep a b : string) :
  substitute pat rep (a ++ b) = substitute pat rep a ++ substitute pat rep b.
Proof.
  induction a as [| c a IH]; cbn; [reflexivity |].
  rewrite IH. destruct (Ascii.eqb c pat); [now rewrite append_assoc | reflexivity].
Qed.

Lemma substitute_cons (pat : ascii) (rep : string) (c : ascii) (s : string) :
  substitute pat rep (String c s)
  = substitute pat rep (String c EmptyString) ++ substitute pat rep s.
Proof. apply (substitute_app pat rep (String c EmptyString) s). Qed.

(** None of the replacement texts of the source holds a pattern of
    [GetSubstitution]: each is inserted as it stands. *)
Lemma replace_backtick (s : string) : replace "`" "``" s = substitute "`" "``" s.
Proof. apply replace_literal. reflexivity. Qed.

Lemma replace_dollar (s : string) : replace "$" "`$" s = substitute "$" "`$" s.
Proof. apply replace_literal. reflexivity. Qed.

Lemma replace_dquote_backtick (s : string) :
  replace dquote (String "`" (String dquote EmptyString)) s
  = substitute dquote (String "`" (String dquote EmptyString)) s.
Proof. apply replace_literal. reflexivity. Qed.

Lemma replace_quote (s : string) : replace "'" "''" s = substitute "'" "''" s.
Proof. apply replace_literal. reflexivity. Qed.

Lemma replace_backslash (s : string) : replace "\" "\\" s = substitute "\" "\\" s.
Proof. apply replace_literal. reflexivity. Qed.

Lemma replace_dquote_backslash (s : string) :
  replace dquote (String "\" (String dquote EmptyString)) s
  = substitute dquote (String "\" (String dquote EmptyString)) s.
Proof. apply replace_literal. reflexivity. Qed.

End Replace.

Ltac to_substitute :=
  rewrite ?replace_backslash, ?replace_quote, ?replace_dquote_backtick,
    ?replace_dollar, ?replace_backtick, ?replace_dquote_backslash.

Section WindowsQuoting.

Lemma escapeWindows_cons (c : ascii) (s : string) :
  escapeWindows (String c s) = escapeWindows (String c EmptyString) ++ escapeWindows s.
Proof.
  unfold escapeWindows. to_substitute.
  rewrite (substitute_cons "`"). rewrite !substitute_app. reflexivity.
Qed.

Lemma windowsLiteralValue_cons (c : ascii) (s : string) :
  windowsLiteralValue (String c s)
  = windowsLiteralValue (String c EmptyString) ++ windowsLiteralValue s.
Proof.
  unfold windowsLiteralValue. to_substitute.
  rewrite (substitute_cons "`"). rewrite !substitute_app. reflexivity.
Qed.

Lemma windows_char (c : ascii) : WindowsChar c.
Proof.
  destruct (Ascii.eqb_spec c "`"); [now apply IsBacktick |].
  destruct (Ascii.eqb_spec c "$"); [now apply IsDollar |].
  destruct (Ascii.eqb_spec c dquote); [now apply IsDquote |].
  destruct (Ascii.eqb_spec c "'"); [now apply IsQuote |].
  destruct (Ascii.eqb_spec c "\"); [now apply IsBackslash |].
  apply IsOther; apply Ascii.eqb_neq; assumption.
Qed.

Lemma escapeWindows_other (c : ascii) :
  Ascii.eqb c "`" = false -> Ascii.eqb c "$" = false ->
  Ascii.eqb c dquote = false -> Ascii.eqb c "'" = false ->
  Ascii.eqb c "\" = false ->
  escapeWindows (String c EmptyString) = String c EmptyString
  /\ windowsLiteralValue (String c EmptyString) = String c EmptyString.
Proof.
  intros H1 H2 H3 H4 H5. unfold escapeWindows, windowsLiteralValue. to_substitute.
  cbn. rewrite H1. cbn. rewrite H2. cbn. rewrite H3. cbn. rewrite H4, H5. cbn.
  rewrite H5. split; reflexivity.
Qed.

(** PowerShell reads the escaped text, closed by a quote, as the text with
    the four other replacements still in it. *)
Lemma singleQuoted_escapeWindows (text rest : string) :
  (forall r, rest <> String "'" r) ->
  singleQuoted (escapeWindows text ++ String "'" rest)
  = Some (windowsLiteralValue text, rest).
Proof.
  intros Hrest. induction text as [| c text IH].
  - cbn. destruct rest as [| d rest']; [reflexivity |].
    destruct (Ascii.eqb_spec d "'") as [-> | _]; [now destruct (Hrest rest') | reflexivity].
  - rewrite escapeWindows_cons, windowsLiteralValue_cons, append_assoc.
    destruct (windows_char c) as [-> | -> | -> | -> | -> | H1 H2 H3 H4 H5].
    + change (escapeWindows "`") with "``". change (windowsLiteralValue "`") with "``".
      cbn. rewrite IH. reflexivity.
    + change (escapeWindows "$") with "`$". change (windowsLiteralValue "$") with "`$".
      cbn. rewrite IH. reflexivity.
    + change (escapeWindows (String dquote EmptyString))
        with (String "`" (String dquote EmptyString)).
      change (windowsLiteralValue (String dquote EmptyString))
        with (String "`" (String dquote EmptyString)).
      cbn. rewrite IH. reflexivity.
    + change (escapeWindows "'") with "''". change (windowsLiteralValue "'") with "'".
      cbn. rewrite IH. reflexivity.
    + change (escapeWindows "\") with "\\". change (windowsLiteralValue "\") with "\\".
      cbn. rewrite IH. reflexivity.
    + destruct (escapeWindows_other c H1 H2 H3 H4 H5) as [-> ->].
      cbn. rewrite H4, IH. reflexivity.
Qed.

(** The same, on the command the branch builds. *)
Lemma firstSingleQuoted_windowsCommand (text : string) :
  firstSingleQuoted (windowsCommand (escapeWindows text))
  = Some (windowsLiteralValue text, afterWindowsLiteral).
Proof.
  transitivity (singleQuoted (escapeWindows text ++ String "'" afterWindowsLiteral)).
  - reflexivity.
  - apply singleQuoted_escapeWindows. intros r Hr. discriminate Hr.
Qed.

Lemma windowsLiteralValue_length (text : string) :
  (String.length text <= String.length (windowsLiteralValue text))%nat
  /\ (forallChars (fun c => negb (escapedLikeDoubleQuoted c)) text = false ->
      String.length text < String.length (windowsLiteralValue text))%nat.
Proof.
  induction text as [| c text [IHle IHlt]]; [split; [cbn; lia | discriminate] |].
  rewrite windowsLiteralValue_cons, length_append. cbn [forallChars String.length].
  unfold escapedLikeDoubleQuoted at 1.
  destruct (windows_char c) as [-> | -> | -> | -> | -> | H1 H2 H3 H4 H5].
  - change (windowsLiteralValue "`") with "``". cbn. lia.
  - change (windowsLiteralValue "$") with "`$". cbn. lia.
  - change (windowsLiteralValue (String dquote EmptyString))
      with (String "`" (String dquote EmptyString)). cbn. lia.
  - change (windowsLiteralValue "'") with "'". cbn. split; [lia |].
    intros H. apply IHlt in H. lia.
  - change (windowsLiteralValue "\") with "\\". cbn. lia.
  - destruct (escapeWindows_other c H1 H2 H3 H4 H5) as [_ ->].
    rewrite H1, H2, H3, H5. cbn. split; [lia |].
    intros H. apply IHlt in H. lia.
Qed.

Lemma windowsLiteralValue_plain (text : string) :
  forallChars (fun c => negb (escapedLikeDoubleQuoted c)) text = true ->
  windowsLiteralValue text = text.
Proof.
  induction text as [| c text IH]; [reflexivity |].
  cbn [forallChars]. intros H. apply andb_prop in H as [Hc Ht].
  rewrite windowsLiteralValue_cons, (IH Ht).
  unfold escapedLikeDoubleQuoted in Hc.
  destruct (windows_char c) as [-> | -> | -> | -> | -> | H1 H2 H3 H4 H5];
    try discriminate Hc.
  - reflexivity.
  - destruct (escapeWindows_other c H1 H2 H3 H4 H5) as [_ ->]. reflexivity.
Qed.

(** The literal gives the text back exactly when the text holds no backtick,
    dollar sign, double quote or backslash. *)
Lemma windows_round_trip_iff (text : string) :
  firstSingleQuoted (windowsCommand (escapeWindows text))
  = Some (text, afterWindowsLiteral)
  <-> forallChars (fun c => negb (escapedLikeDoubleQuoted c)) text = true.
Proof.
  rewrite firstSingleQuoted_windowsCommand. split.
  - intros H.
    destruct (forallChars _ text) eqn:Hall; [reflexivity |].
    apply (proj2 (windowsLiteralValue_length text)) in Hall.
    injection H as H. rewrite H in Hall. lia.
  - intros H. now rewrite (windowsLiteralValue_plain text H).
Qed.

End WindowsQuoting.

(** C1. PowerShell reads the single-quoted literal of the generated command
    as the text with the replacements for backticks, dollar signs, double
    quotes and backslashes still in it: only the doubling of single quotes is
    undone.  A backtick comes back as two backticks, a dollar sign and a
    double quote with a backtick before them, a backslash as two backslashes;
    the literal gives the text back exactly when the text holds none of these
    four characters. *)
Theorem windows_literal_keeps_other_escapes :
  (forall text : string,
     firstSingleQuoted (windowsCommand (escapeWindows text))
     = Some (windowsLiteralValue text, afterWindowsLiteral))
  /\ firstSingleQuoted (windowsCommand (escapeWindows "`"))
     = Some ("``", afterWindowsLiteral)
  /\ firstSingleQuoted (windowsCommand (escapeWindows "$5"))
     = Some ("`$5", afterWindowsLiteral)
  /\ firstSingleQuoted (windowsCommand (escapeWindows (String dquote EmptyString)))
     = Some (String "`" (String dquote EmptyString), afterWindowsLiteral)
  /\ firstSingleQuoted (windowsCommand (escapeWindows "C:\temp"))
     = Some ("C:\\temp", afterWindowsLiteral)
  /\ firstSingleQuoted (windowsCommand (escapeWindows "it's 5 o'clock"))
     = Some ("it's 5 o'clock", afterWindowsLiteral)
  /\ (forall text : string,
        firstSingleQuoted (windowsCommand (escapeWindows text))
        = Some (text, afterWindowsLiteral)
        <-> forallChars (fun c => negb (escapedLikeDoubleQuoted c)) text = true).
Proof.
  split; [exact firstSingleQuoted_windowsCommand |].
  repeat (split; [vm_compute; reflexivity |]).
  exact windows_round_trip_iff.
Qed.

Section PosixQuoting.

Lemma escapeDoubleQuotes_cons (c : ascii) (s : string) :
  escapeDoubleQuotes (String c s)
  = escapeDoubleQuotes (String c EmptyString) ++ escapeDoubleQuotes s.
Proof. unfold escapeDoubleQuotes. to_substitute. apply substitute_cons. Qed.

(** A text without backslash, dollar sign and backquote comes back from the
    double-quoted word. *)
Lemma doubleQuoted_escapeDoubleQuotes (text rest : string) :
  forallChars (fun c => negb (specialInDoubleQuotes c)) text = true ->
  doubleQuoted (escapeDoubleQuotes text ++ String dquote rest) = Literal text rest.
Proof.
  induction text as [| c text IH]; intros Hall.
  - reflexivity.
  - cbn [forallChars] in Hall. apply andb_prop in Hall as [Hc Ht].
    rewrite escapeDoubleQuotes_cons, append_assoc.
    unfold specialInDoubleQuotes in Hc.
    destruct (Ascii.eqb_spec c dquote) as [-> | Hq].
    + change (escapeDoubleQuotes (String dquote EmptyString))
        with (String "\" (String dquote EmptyString)).
      cbn. rewrite (IH Ht). reflexivity.
    + apply Ascii.eqb_neq in Hq.
      assert (He : escapeDoubleQuotes (String c EmptyString) = String c EmptyString).
      { unfold escapeDoubleQuotes. to_substitute. cbn. now rewrite Hq. }
      rewrite He. cbn [append doubleQuoted]. rewrite Hq.
      destruct (Ascii.eqb c "\"); [discriminate Hc |].
      destruct (Ascii.eqb c "$"); [discriminate Hc |].
      destruct (Ascii.eqb c "`"); [discriminate Hc |].
      cbn [orb]. rewrite (IH Ht). reflexivity.
Qed.

Lemma firstDoubleQuoted_echoInto (text sink : string) :
  forallChars (fun c => negb (specialInDoubleQuotes c)) text = true ->
  firstDoubleQuoted (echoInto text sink) = Literal text (" | " ++ sink).
Proof.
  intros Hall.
  transitivity (doubleQuoted (escapeDoubleQuotes text ++ String dquote (" | " ++ sink))).
  - reflexivity.
  - apply doubleQuoted_escapeDoubleQuotes, Hall.
Qed.

End PosixQuoting.

(** C2. A POSIX shell reads the double-quoted word of the generated echo
    command as the text only while the text holds no backslash, dollar sign
    or backquote.  A quoted path with doubled backslashes comes back with
    single ones, a backslash before a double quote closes the word after the
    backslash, and a dollar sign starts an expansion, on the macOS command and
    on the Linux command alike. *)
Theorem posix_word_loses_other_specials :
  firstDoubleQuoted (macClipboardCommand (quoted "C:\\temp"))
  = Literal (quoted "C:\temp") " | pbcopy"
  /\ firstDoubleQuoted (linuxClipboardCommand (quoted "C:\\temp"))
     = Literal (quoted "C:\temp") " | xclip -selection clipboard"
  /\ firstDoubleQuoted (macClipboardCommand (String "\" (String dquote EmptyString)))
     = Literal "\" (String dquote " | pbcopy")
  /\ firstDoubleQuoted (linuxClipboardCommand (String "\" (String dquote EmptyString)))
     = Literal "\" (String dquote " | xclip -selection clipboard")
  /\ firstDoubleQuoted (macClipboardCommand (quoted "$HOME")) = Expansion
  /\ firstDoubleQuoted (linuxClipboardCommand (quoted "$HOME")) = Expansion
  /\ firstDoubleQuoted (macClipboardCommand (quoted "4/5/2024"))
     = Literal (quoted "4/5/2024") " | pbcopy"
  /\ (forall text sink : string,
        forallChars (fun c => negb (specialInDoubleQuotes c)) text = true ->
        firstDoubleQuoted (echoInto text sink) = Literal text (" | " ++ sink)).
Proof.
  repeat (split; [vm_compute; reflexivity |]).
  exact firstDoubleQuoted_echoInto.
Qed.

(* ===================================================================== *)
(** * More on the escaping of the text *)
(* ===================================================================== *)

Section WindowsEscaping.

Lemma escapeWindows_char (c : ascii) :
  escapeWindows (String c EmptyString) = windowsEscapeChar c.
Proof.
  destruct (windows_char c) as [-> | -> | -> | -> | -> | H1 H2 H3 H4 H5];
    try reflexivity.
  destruct (escapeWindows_other c H1 H2 H3 H4 H5) as [-> _].
  unfold windowsEscapeChar. now rewrite H1, H2, H3, H4, H5.
Qed.

Lemma escapeWindows_mapChars (text : string) :
  escapeWindows text = mapChars windowsEscapeChar text.
Proof.
  induction text as [| c text IH]; [reflexivity |].
  rewrite escapeWindows_cons, escapeWindows_char, IH. reflexivity.
Qed.

Lemma mapChars_app (f : ascii -> string) (a b : string) :
  mapChars f (a ++ b) = mapChars f a ++ mapChars f b.
Proof.
  induction a as [| c a IH]; cbn; [reflexivity |].
  now rewrite IH, append_assoc.
Qed.

Lemma windowsEscapeChar_length (c : ascii) :
  String.length (windowsEscapeChar c) = ((if replacedOnWindows c then 1 else 0) + 1)%nat.
Proof.
  unfold windowsEscapeChar, replacedOnWindows.
  destruct (Ascii.eqb c "`"); [reflexivity |].
  destruct (Ascii.eqb c "$"); [reflexivity |].
  destruct (Ascii.eqb c dquote); [reflexivity |].
  destruct (Ascii.eqb c "'"); [reflexivity |].
  destruct (Ascii.eqb c "\"); reflexivity.
Qed.

(** X1. The five passes of the Windows branch amount to one pass that writes
    [windowsEscapeChar c] for every character [c]: no pass touches what an
    earlier pass has written.  So the escaping of a text in two parts is the
    escaping of the parts, and the escaped text is longer than the text by
    the number of replaced characters. *)
Theorem escapeWindows_single_pass :
  forall a b : string,
    escapeWindows a = mapChars windowsEscapeChar a
    /\ escapeWindows (a ++ b) = escapeWindows a ++ escapeWindows b
    /\ String.length (escapeWindows a)
       = (String.length a + countChars replacedOnWindows a)%nat.
Proof.
  intros a b. split; [apply escapeWindows_mapChars |]. split.
  - rewrite !escapeWindows_mapChars. apply mapChars_app.
  - rewrite escapeWindows_mapChars.
    induction a as [| c a IH]; [reflexivity |].
    cbn [mapChars countChars String.length].
    rewrite length_append, windowsEscapeChar_length, IH. lia.
Qed.

Lemma unescapeWindows_escaped (text : string) :
  unescapeWindows (mapChars windowsEscapeChar text) = Some text.
Proof.
  induction text as [| c text IH]; [reflexivity |].
  cbn [mapChars].
  destruct (windows_char c) as [-> | -> | -> | -> | -> | H1 H2 H3 H4 H5].
  - cbn. rewrite IH. reflexivity.
  - cbn. rewrite IH. reflexivity.
  - cbn. rewrite IH. reflexivity.
  - cbn. rewrite IH. reflexivity.
  - cbn. rewrite IH. reflexivity.
  - assert (Hc : windowsEscapeChar c = String c EmptyString)
      by (unfold windowsEscapeChar; now rewrite H1, H2, H3, H4, H5).
    rewrite Hc. cbn [append unescapeWindows].
    rewrite H1, H2, H3, H4, H5. cbn [orb].
    rewrite IH. reflexivity.
Qed.

(** X2. The escaping of the Windows branch can be read back: it loses nothing of
    the text, and two different texts are never escaped to the same text. *)
Theorem escapeWindows_reads_back :
  (forall text : string, unescapeWindows (escapeWindows text) = Some text)
  /\ (forall a b : string, escapeWindows a = escapeWindows b -> a = b).
Proof.
  assert (Hback : forall text, unescapeWindows (escapeWindows text) = Some text).
  { intros text. rewrite escapeWindows_mapChars. apply unescapeWindows_escaped. }
  split; [exact Hback |].
  intros a b Heq.
  pose proof (Hback a) as Ha. rewrite Heq, Hback in Ha. now injection Ha.
Qed.

End WindowsEscaping.

Section PosixEscaping.

Lemma escapeDoubleQuotes_substitute (text : string) :
  escapeDoubleQuotes text
  = substitute dquote (String "\" (String dquote EmptyString)) text.
Proof. unfold escapeDoubleQuotes. now to_substitute. Qed.

Lemma escapeDoubleQuotes_start (text : string) :
  match escapeDoubleQuotes text with
  | String c _ => Ascii.eqb c dquote = false
  | EmptyString => True
  end.
Proof.
  rewrite escapeDoubleQuotes_substitute.
  destruct text as [| c text]; [exact I |]. cbn.
  destruct (Ascii.eqb c dquote) eqn:E; [reflexivity | exact E].
Qed.

Lemma unescapeDoubleQuotes_cons (c : ascii) (s : string) :
  match s with
  | String d _ => Ascii.eqb d dquote = false
  | EmptyString => True
  end ->
  unescapeDoubleQuotes (String c s) = String c (unescapeDoubleQuotes s).
Proof.
  destruct s as [| d s]; [reflexivity |].
  intros Hd. cbn [unescapeDoubleQuotes]. rewrite Hd. reflexivity.
Qed.

Lemma unescapeDoubleQuotes_escaped (text : string) :
  unescapeDoubleQuotes (escapeDoubleQuotes text) = text.
Proof.
  induction text as [| c text IH]; [reflexivity |].
  pose proof (escapeDoubleQuotes_start text) as Hstart.
  rewrite escapeDoubleQuotes_cons.
  destruct (Ascii.eqb_spec c dquote) as [-> | Hq].
  - change (escapeDoubleQuotes (String dquote EmptyString))
      with (String "\" (String dquote EmptyString)).
    cbn. rewrite IH. reflexivity.
  - apply Ascii.eqb_neq in Hq.
    assert (He : escapeDoubleQuotes (String c EmptyString) = String c EmptyString).
    { rewrite escapeDoubleQuotes_substitute. cbn. now rewrite Hq. }
    rewrite He. cbn [append].
    rewrite (unescapeDoubleQuotes_cons c _ Hstart), IH. reflexivity.
Qed.

Lemma escapeDoubleQuotes_mapChars (text : string) :
  escapeDoubleQuotes text = mapChars posixEscapeChar text.
Proof.
  rewrite escapeDoubleQuotes_substitute.
  induction text as [| c text IH]; [reflexivity |].
  cbn [substitute mapChars]. unfold posixEscapeChar at 1.
  rewrite IH. destruct (Ascii.eqb c dquote); reflexivity.
Qed.

(** X3. The escaping of the macOS and Linux branches writes a backslash and
    a double quote for every double quote, and every other character as it
    stands.  So a text in two parts is escaped part by part, the escaped text
    is longer by the number of double quotes, the text can be read back, and
    two different texts are never escaped to the same text. *)
Theorem escapeDoubleQuotes_reads_back :
  (forall a b : string,
     escapeDoubleQuotes a = mapChars posixEscapeChar a
     /\ escapeDoubleQuotes (String dquote EmptyString) = String "\" (String dquote EmptyString)
     /\ escapeDoubleQuotes (a ++ b) = escapeDoubleQuotes a ++ escapeDoubleQuotes b
     /\ String.length (escapeDoubleQuotes a)
        = (String.length a + countChars (fun c => Ascii.eqb c dquote) a)%nat
     /\ unescapeDoubleQuotes (escapeDoubleQuotes a) = a)
  /\ (forall a b : string, escapeDoubleQuotes a = escapeDoubleQuotes b -> a = b).
Proof.
  split.
  - intros a b. split; [apply escapeDoubleQuotes_mapChars |].
    split; [reflexivity |]. split; [| split].
    + rewrite !escapeDoubleQuotes_substitute. apply substitute_app.
    + rewrite escapeDoubleQuotes_substitute.
      induction a as [| c a IH]; [reflexivity |].
      cbn [substitute countChars String.length].
      destruct (Ascii.eqb c dquote); cbn; rewrite IH; lia.
    + apply unescapeDoubleQuotes_escaped.
  - intros a b Heq.
    rewrite <- (unescapeDoubleQuotes_escaped a), Heq.
    apply unescapeDoubleQuotes_escaped.
Qed.

End PosixEscaping.

(* ===================================================================== *)
(** * The timestamps need no escaping *)
(* ===================================================================== *)

Section TimestampCharacters.

Lemma forallChars_app (p : ascii -> bool) (a b : string) :
  forallChars p (a ++ b) = forallChars p a && forallChars p b.
Proof.
  induction a as [| c a IH]; cbn; [reflexivity |].
  now rewrite IH, andb_assoc.
Qed.

Lemma forallChars_impl (p q : ascii -> bool) (s : string) :
  (forall c, p c = true -> q c = true) ->
  forallChars p s = true -> forallChars q s = true.
Proof.
  intros Hpq. induction s as [| c s IH]; cbn; [reflexivity |].
  intros H. apply andb_prop in H as [Hc Hs].
  now rewrite (Hpq c Hc), (IH Hs).
Qed.

Lemma string_of_uint_chars (d : Decimal.uint) :
  forallChars timestampChar (NilEmpty.string_of_uint d) = true.
Proof. induction d; cbn [NilEmpty.string_of_uint forallChars]; try rewrite IHd; reflexivity. Qed.

Lemma numberToString_chars (n : Z) :
  forallChars timestampChar (numberToString n) = true.
Proof.
  unfold numberToString, NilZero.string_of_int, NilZero.string_of_uint.
  destruct (Z.to_int n) as [d | d]; destruct d;
    try reflexivity;
    try (cbn [forallChars]; apply (string_of_uint_chars (_ d)));
    change (forallChars timestampChar (String "-" (NilEmpty.string_of_uint (_ d))) = true);
    cbn [forallChars]; apply (string_of_uint_chars (_ d)).
Qed.

Lemma repeatTo_zero_chars (n : nat) (pending : string) :
  forallChars timestampChar pending = true ->
  forallChars timestampChar (repeatTo n "0" pending) = true.
Proof.
  revert pending. induction n as [| n IH]; intros pending Hp; [reflexivity |].
  destruct pending as [| c rest]; cbn [repeatTo forallChars].
  - now rewrite IH.
  - cbn [forallChars] in Hp. apply andb_prop in Hp as [Hc Hr].
    now rewrite Hc, IH.
Qed.

Lemma padStart_zero_chars (n : nat) (s : string) :
  forallChars timestampChar s = true ->
  forallChars timestampChar (padStart n "0" s) = true.
Proof.
  intros Hs. unfold padStart. destruct (n <=? String.length s)%nat; [exact Hs |].
  now rewrite forallChars_app, repeatTo_zero_chars, Hs.
Qed.

Lemma padded_number_chars (n : nat) (z : Z) :
  forallChars timestampChar (padStart n "0" (numberToString z)) = true.
Proof. apply padStart_zero_chars, numberToString_chars. Qed.

Lemma customTimestamp_chars (h : Host) (t : Z) :
  forallChars timestampChar (customTimestamp h t) = true.
Proof.
  unfold customTimestamp. cbv zeta.
  repeat (rewrite forallChars_app;
          first [rewrite padded_number_chars | rewrite numberToString_chars];
          cbn [andb]);
  repeat (change (forallChars timestampChar (String ?c ?s))
            with (timestampChar c && forallChars timestampChar s));
  rewrite ?forallChars_app, ?padded_number_chars; reflexivity.
Qed.

Lemma isoYear_chars (y : Z) : forallChars timestampChar (isoYear y) = true.
Proof.
  unfold isoYear. destruct ((0 <=? y) && (y <=? 9999)); [apply padded_number_chars |].
  rewrite forallChars_app, padded_number_chars. destruct (y <? 0); reflexivity.
Qed.

Lemma toISOString_chars (t : Z) : forallChars timestampChar (toISOString t) = true.
Proof.
  unfold toISOString.
  rewrite forallChars_app, isoYear_chars. cbn [andb].
  repeat (rewrite forallChars_app; cbn [forallChars andb];
          change (timestampChar "-") with true;
          change (timestampChar "T") with true;
          change (timestampChar ":") with true;
          change (timestampChar ".") with true;
          cbn [andb];
          rewrite ?forallChars_app, ?padded_number_chars; cbn [andb]).
  reflexivity.
Qed.

(** A timestamp character is none of the characters a branch replaces or a
    shell reads specially. *)
Lemma timestampChar_ordinary (c : ascii) :
  timestampChar c = true ->
  replacedOnWindows c = false
  /\ escapedLikeDoubleQuoted c = false
  /\ specialInDoubleQuotes c = false
  /\ Ascii.eqb c dquote = false.
Proof.
  unfold timestampChar. cbn [list_ascii_of_string existsb].
  repeat match goal with
         | |- context [ Ascii.eqb c ?x || _ ] =>
             destruct (Ascii.eqb_spec c x) as [-> | _];
             [intros _; repeat split; reflexivity | cbn [orb]]
         end.
  discriminate.
Qed.

Lemma escapeWindows_ordinary (text : string) :
  forallChars (fun c => negb (replacedOnWindows c)) text = true ->
  escapeWindows text = text.
Proof.
  rewrite escapeWindows_mapChars.
  induction text as [| c text IH]; [reflexivity |].
  cbn [forallChars mapChars]. intros H. apply andb_prop in H as [Hc Ht].
  rewrite (IH Ht). apply negb_true_iff in Hc.
  unfold replacedOnWindows in Hc. unfold windowsEscapeChar.
  destruct (Ascii.eqb c "`"); [discriminate Hc |].
  destruct (Ascii.eqb c "$"); [discriminate Hc |].
  destruct (Ascii.eqb c dquote); [discriminate Hc |].
  destruct (Ascii.eqb c "'"); [discriminate Hc |].
  destruct (Ascii.eqb c "\"); [discriminate Hc | reflexivity].
Qed.

Lemma escapeDoubleQuotes_ordinary (text : string) :
  forallChars (fun c => negb (Ascii.eqb c dquote)) text = true ->
  escapeDoubleQuotes text = text.
Proof.
  rewrite escapeDoubleQuotes_substitute.
  induction text as [| c text IH]; [reflexivity |].
  cbn [forallChars substitute]. intros H. apply andb_prop in H as [Hc Ht].
  rewrite (IH Ht). apply negb_true_iff in Hc. now rewrite Hc.
Qed.

Lemma timestamp_insertedVerbatim (ts : string) :
  forallChars timestampChar ts = true -> insertedVerbatim ts.
Proof.
  intros Hts.
  assert (Hw : escapeWindows ts = ts).
  { apply escapeWindows_ordinary. revert Hts. apply forallChars_impl.
    intros c Hc. now destruct (timestampChar_ordinary c Hc) as (-> & _). }
  split; [exact Hw |]. split; [| split].
  - apply escapeDoubleQuotes_ordinary. revert Hts. apply forallChars_impl.
    intros c Hc. now destruct (timestampChar_ordinary c Hc) as (_ & _ & _ & ->).
  - apply windows_round_trip_iff. revert Hts. apply forallChars_impl.
    intros c Hc. now destruct (timestampChar_ordinary c Hc) as (_ & -> & _).
  - intros sink. apply firstDoubleQuoted_echoInto. revert Hts. apply forallChars_impl.
    intros c Hc. now destruct (timestampChar_ordinary c Hc) as (_ & _ & -> & _).
Qed.

End TimestampCharacters.

(** X4. For every host and instant, the [iso] and the [custom] timestamp hold
    only digits, hyphens, colons, a point, a space, a sign and the letters T
    and Z.  So no branch of [copyPasteText] changes them when it escapes
    them, PowerShell reads the literal of the Windows command as the
    timestamp, and a POSIX shell reads the word of the macOS and Linux
    commands as the timestamp. *)
Theorem iso_and_custom_timestamps_inserted_verbatim :
  forall h : Host,
    forallChars timestampChar (getFormattedTimestamp h "iso") = true
    /\ forallChars timestampChar (getFormattedTimestamp h "custom") = true
    /\ insertedVerbatim (getFormattedTimestamp h "iso")
    /\ insertedVerbatim (getFormattedTimestamp h "custom").
Proof.
  intros h. rewrite selector_iso, selector_custom.
  pose proof (toISOString_chars (now h)) as Hi.
  pose proof (customTimestamp_chars h (now h)) as Hc.
  repeat split; try assumption; now apply timestamp_insertedVerbatim.
Qed.

(* ===================================================================== *)
(** * The handlers keep no state *)
(* ===================================================================== *)

Section LogBlind.

Lemma logBlind_ret {A : Type} (a : A) : logBlind (ret a).
Proof. intros before w. reflexivity. Qed.

Lemma logBlind_throw {A : Type} (e : JsError) : logBlind (@throw A e).
Proof. intros before w. reflexivity. Qed.

Lemma logBlind_log (level : LogLevel) (line : string) : logBlind (log level line).
Proof.
  intros before w. unfold log, withEarlierLog. cbn.
  now rewrite app_assoc.
Qed.

Lemma logBlind_execAsync (h : Host) (cmd : string) : logBlind (execAsync h cmd).
Proof.
  intros before w. unfold execAsync, withEarlierLog. cbn.
  destruct (execResult h (executed w) cmd); reflexivity.
Qed.

Lemma logBlind_showOk (h : Host) : logBlind (showOk h).
Proof.
  intros before w. unfold showOk, withEarlierLog. cbn.
  destruct (showOkResult h); reflexivity.
Qed.

Lemma logBlind_bind {A B : Type} (c : M A) (k : A -> M B) :
  logBlind c -> (forall a, logBlind (k a)) -> logBlind (bind c k).
Proof.
  intros Hc Hk before w. unfold bind. rewrite Hc.
  destruct (c w) as [[e | a] w']; cbn [fst snd]; [reflexivity |].
  rewrite Hk. destruct (k a w'); reflexivity.
Qed.

Lemma logBlind_tryCatch {A : Type} (body : M A) (handler : JsError -> M A) :
  logBlind body -> (forall e, logBlind (handler e)) -> logBlind (tryCatch body handler).
Proof.
  intros Hb Hh before w. unfold tryCatch. rewrite Hb.
  destruct (body w) as [[e | a] w']; cbn [fst snd]; [| reflexivity].
  rewrite Hh. destruct (handler e w'); reflexivity.
Qed.

Ltac log_blind :=
  repeat first
    [ apply logBlind_tryCatch | apply logBlind_bind | apply logBlind_log
    | apply logBlind_execAsync | apply logBlind_showOk | apply logBlind_throw
    | apply logBlind_ret | intro ].

Lemma logBlind_copyPasteText (h : Host) (text : string) : logBlind (copyPasteText h text).
Proof.
  unfold copyPasteText.
  destruct (String.eqb (platform h) "win32"); [log_blind |].
  destruct (String.eqb (platform h) "darwin"); log_blind.
Qed.

Lemma logBlind_onKeyDown (h : Host) (ev : KeyDownEvent) : logBlind (onKeyDown h ev).
Proof.
  unfold onKeyDown. cbv zeta.
  apply logBlind_tryCatch; [| log_blind].
  apply logBlind_bind; [apply logBlind_log | intros _].
  apply logBlind_bind; [apply logBlind_copyPasteText | intros _; apply logBlind_showOk].
Qed.

End LogBlind.

(** X5. A settings event does nothing but log one line, [Settings changed:
    format = ] and the format, or [undefined] when the settings hold none: it
    runs no command, asks nothing of the key and cannot fail.  A key press
    reads its format from its own event and does not look at the log: after
    a settings event it returns the same, runs the same commands, asks the
    key the same and logs the same lines as without it, whatever the
    settings of that event were. *)
Theorem settings_event_leaves_key_press_unchanged
    (h : Host) (ev : KeyDownEvent) (sev : DidReceiveSettingsEvent) (w : World) :
  let line := (LogInfo, "Settings changed: format = " ++ formatText (newSettings sev)) in
  let pressed := onKeyDown h ev w in
  let pressedAfter := onKeyDown h ev (snd (onDidReceiveSettings sev w)) in
  onDidReceiveSettings sev w
  = (inr tt, {| executed := executed w;
                logged := logged w ++ [line];
                okShown := okShown w |})
  /\ fst pressedAfter = fst pressed
  /\ executed (snd pressedAfter) = executed (snd pressed)
  /\ okShown (snd pressedAfter) = okShown (snd pressed)
  /\ exists added : list (LogLevel * string),
       logged (snd pressed) = (logged w ++ added)%list
       /\ logged (snd pressedAfter) = (logged w ++ [line] ++ added)%list.
Proof.
  intros line pressed pressedAfter.
  split; [reflexivity |].
  set (bare := {| executed := executed w; logged := []; okShown := okShown w |}).
  assert (Hw : w = withEarlierLog (logged w) bare).
  { destruct w. unfold withEarlierLog, bare. cbn. now rewrite app_nil_r. }
  assert (Hs : snd (onDidReceiveSettings sev w)
               = withEarlierLog (logged w ++ [line])%list bare).
  { unfold onDidReceiveSettings, log, withEarlierLog, bare. cbn. now rewrite app_nil_r. }
  pose proof (logBlind_onKeyDown h ev (logged w) bare) as Hp.
  rewrite <- Hw in Hp. fold pressed in Hp.
  pose proof (logBlind_onKeyDown h ev (logged w ++ [line])%list bare) as Ha.
  rewrite <- Hs in Ha. fold pressedAfter in Ha.
  rewrite Hp, Ha. cbn [fst snd withEarlierLog executed okShown logged].
  repeat split.
  exists (logged (snd (onKeyDown h ev bare))).
  split; [reflexivity |]. now rewrite <- app_assoc.
Qed.

(** X6. When the insertion succeeds but the key rejects the request for its OK
    mark, the handler still completes without an error: the text has been
    inserted, the key has been asked once, and the rejection is logged as
    [Error getting timestamp: ] and the error. *)
Theorem rejected_ok_mark_is_only_logged
    (h : Host) (ev : KeyDownEvent) (w w1 : World) (why : JsError) :
  let format := selectedFormat ev in
  let timestamp := getFormattedTimestamp h format in
  let w0 := wrote LogInfo ("Got timestamp: " ++ timestamp ++ " (format: " ++ format ++ ")") w in
  showOkResult h = Some why ->
  copyPasteText h timestamp w0 = (inr tt, w1) ->
  onKeyDown h ev w
  = (inr tt,
     {| executed := executed w1;
        logged := logged w1 ++ [(LogError, "Error getting timestamp: " ++ errorToString why)];
        okShown := S (okShown w) |}).
Proof.
  intros format timestamp w0 Hok Hins.
  pose proof (copyPasteText_okShown h timestamp w0) as Hn.
  rewrite Hins in Hn. cbn in Hn.
  unfold onKeyDown, tryCatch, bind, showOk.
  change (log LogInfo ("Got timestamp: " ++ getFormattedTimestamp h (selectedFormat ev)
                       ++ " (format: " ++ selectedFormat ev ++ ")") w)
    with (@inr JsError unit tt, w0).
  cbv iota beta. fold format timestamp.
  rewrite Hins, Hok. cbn. rewrite Hn. reflexivity.
Qed.

(** On the sample Linux host whose key rejects the request. *)
Lemma rejected_ok_mark_is_only_logged_witness :
  onKeyDown
    (Sample.hostRejectingOk "linux" Sample.instant Sample.utcMinus5 Sample.allSucceed
       {| message := "not connected" |})
    {| settings := Some {| format := Some "iso" |} |} emptyWorld
  = (inr tt,
     {| executed := [linuxClipboardCommand "2024-04-05T18:30:00.000Z"; linuxKeystrokeCommand];
        logged := [(LogInfo, "Got timestamp: 2024-04-05T18:30:00.000Z (format: iso)");
                   (LogError, "Error getting timestamp: Error: not connected")];
        okShown := 1 |}).
Proof.
  apply (rejected_ok_mark_is_only_logged
           (Sample.hostRejectingOk "linux" Sample.instant Sample.utcMinus5 Sample.allSucceed
              {| message := "not connected" |})
           {| settings := Some {| format := Some "iso" |} |} emptyWorld
           {| executed := [linuxClipboardCommand "2024-04-05T18:30:00.000Z";
                           linuxKeystrokeCommand];
              logged := [(LogInfo, "Got timestamp: 2024-04-05T18:30:00.000Z (format: iso)")];
              okShown := 0 |}
           {| message := "not connected" |}).
  - reflexivity.
  - vm_compute. reflexivity.
Defined.

(* ===================================================================== *)
(** * Reading the custom timestamp back *)
(* ===================================================================== *)

Section CustomReadBack.

Lemma append_same_tail_length (a1 a2 b1 b2 : string) :
  String.length b1 = String.length b2 ->
  a1 ++ b1 = a2 ++ b2 -> a1 = a2 /\ b1 = b2.
Proof.
  revert a2. induction a1 as [| c a1 IH]; intros [| d a2] Hlen Heq; cbn in Heq.
  - split; [reflexivity | exact Heq].
  - exfalso. rewrite Heq in Hlen. cbn in Hlen. rewrite length_append in Hlen. lia.
  - exfalso. rewrite <- Heq in Hlen. cbn in Hlen. rewrite length_append in Hlen. lia.
  - injection Heq as -> Heq. destruct (IH a2 Hlen Heq) as [-> ->]. split; reflexivity.
Qed.

Lemma numberToString_inj (a b : Z) : numberToString a = numberToString b -> a = b.
Proof.
  assert (Hback : forall z, NilZero.int_of_string (numberToString z) = Some (Z.to_int z)).
  { intros z. unfold numberToString. apply NilZero.isi.
    - destruct z; cbn; intros [= H]; try discriminate H.
      now apply DecimalPos.Unsigned.to_uint_nonnil in H.
    - destruct z; cbn; intros [= H].
      now apply DecimalPos.Unsigned.to_uint_nonnil in H. }
  intros Heq. apply DecimalZ.to_int_inj.
  pose proof (Hback a) as Ha. rewrite Heq, Hback in Ha. now injection Ha.
Qed.

Lemma digit_inj (a b : Z) : 0 <= a <= 9 -> 0 <= b <= 9 -> digit a = digit b -> a = b.
Proof.
  intros Ha Hb Heq. unfold digit in Heq.
  apply (f_equal nat_of_ascii) in Heq.
  rewrite !nat_ascii_embedding in Heq by lia. lia.
Qed.

Lemma twoDigits_inj (a b : Z) :
  0 <= a <= 99 -> 0 <= b <= 99 -> twoDigits a = twoDigits b -> a = b.
Proof.
  intros Ha Hb Heq. unfold twoDigits in Heq. injection Heq as Hhi Hlo.
  apply digit_inj in Hhi; [| Z.div_mod_to_equations; lia ..].
  apply digit_inj in Hlo; [| Z.div_mod_to_equations; lia ..].
  Z.div_mod_to_equations. lia.
Qed.

(** Year, month, day of the month, hours, minutes and seconds fix a time
    value up to its milliseconds. *)
Lemma fields_fix_second (t u : Z) :
  YearFromTime t = YearFromTime u ->
  MonthFromTime t = MonthFromTime u ->
  DateFromTime t = DateFromTime u ->
  HourFromTime t = HourFromTime u ->
  MinFromTime t = MinFromTime u ->
  SecFromTime t = SecFromTime u ->
  t / 1000 = u / 1000.
Proof.
  intros Hy Hmo Hd Hh Hmi Hs.
  pose proof (time_value_decomposition t) as Ht.
  pose proof (time_value_decomposition u) as Hu.
  pose proof (DateFromTime_calendar t) as (Hct & _ & _).
  pose proof (DateFromTime_calendar u) as (Hcu & _ & _).
  assert (Hleap : InLeapYear t = InLeapYear u) by (unfold InLeapYear; now rewrite Hy).
  rewrite Hct in Ht. rewrite Hcu in Hu.
  rewrite Hy, Hmo, Hd, Hh, Hmi, Hs, Hleap in Ht.
  pose proof (msFromTime_range t) as Hmt.
  pose proof (msFromTime_range u) as Hmu.
  unfold msFromTime, msPerDay, msPerHour, msPerMinute, msPerSecond in *.
  set (base := (DayFromYear (YearFromTime u)
                + (daysBeforeMonth (MonthFromTime u) (InLeapYear u) + DateFromTime u - 1))
               * 86400000 + HourFromTime u * 3600000 + MinFromTime u * 60000
               + SecFromTime u * 1000) in *.
  assert (Hbase : base mod 1000 = 0).
  { unfold base. Z.div_mod_to_equations. lia. }
  clearbody base. Z.div_mod_to_equations. lia.
Qed.

(** A time value's fields depend on its second only. *)
Lemma second_fixes_fields (t u : Z) :
  t / 1000 = u / 1000 ->
  Day t = Day u
  /\ t / msPerHour = u / msPerHour
  /\ t / msPerMinute = u / msPerMinute
  /\ t / msPerSecond = u / msPerSecond.
Proof.
  intros Hs. unfold Day, msPerDay, msPerHour, msPerMinute, msPerSecond.
  repeat split; Z.div_mod_to_equations; lia.
Qed.

Lemma customTimestamp_of_second (h1 h2 : Host) (t u : Z) :
  LocalTime h1 t / 1000 = LocalTime h2 u / 1000 ->
  customTimestamp h1 t = customTimestamp h2 u.
Proof.
  intros Hs. destruct (second_fixes_fields _ _ Hs) as (Hd & Hh & Hm & Hsec).
  unfold customTimestamp, getFullYear, getMonth, getDate, getHours, getMinutes,
    getSeconds, DateFromTime, MonthFromTime, InLeapYear, DayWithinYear, YearFromTime,
    HourFromTime, MinFromTime, SecFromTime.
  rewrite Hd, Hh, Hm, Hsec. reflexivity.
Qed.

Lemma customTimestamp_fixes_second (h1 h2 : Host) (t u : Z) :
  customTimestamp h1 t = customTimestamp h2 u ->
  LocalTime h1 t / 1000 = LocalTime h2 u / 1000.
Proof.
  rewrite !customTimestamp_digits.
  unfold getFullYear, getMonth, getDate, getHours, getMinutes, getSeconds.
  set (lt := LocalTime h1 t). set (lu := LocalTime h2 u).
  pose proof (MonthFromTime_range lt). pose proof (MonthFromTime_range lu).
  pose proof (DateFromTime_range lt). pose proof (DateFromTime_range lu).
  pose proof (HourFromTime_range lt). pose proof (HourFromTime_range lu).
  pose proof (MinFromTime_range lt). pose proof (MinFromTime_range lu).
  pose proof (SecFromTime_range lt). pose proof (SecFromTime_range lu).
  intros Heq.
  apply append_same_tail_length in Heq; [| reflexivity].
  destruct Heq as [Hy Htail].
  apply numberToString_inj in Hy.
  injection Htail as Hm1 Hm2 Hd1 Hd2 Hh1 Hh2 Hi1 Hi2 Hs1 Hs2.
  assert (Hmo : MonthFromTime lt + 1 = MonthFromTime lu + 1)
    by (apply twoDigits_inj; [lia | lia | unfold twoDigits; congruence]).
  assert (Hd : DateFromTime lt = DateFromTime lu)
    by (apply twoDigits_inj; [lia | lia | unfold twoDigits; congruence]).
  assert (Hh : HourFromTime lt = HourFromTime lu)
    by (apply twoDigits_inj; [lia | lia | unfold twoDigits; congruence]).
  assert (Hmi : MinFromTime lt = MinFromTime lu)
    by (apply twoDigits_inj; [lia | lia | unfold twoDigits; congruence]).
  assert (Hs : SecFromTime lt = SecFromTime lu)
    by (apply twoDigits_inj; [lia | lia | unfold twoDigits; congruence]).
  apply fields_fix_second; try assumption. lia.
Qed.

End CustomReadBack.

(** X7. Two key presses get the same [custom] timestamp exactly when their
    local times fall in the same second: the text fixes the local year,
    month, day, hour, minute and second, and nothing else of the instant goes
    into it. *)
Theorem custom_timestamp_names_the_local_second :
  forall h1 h2 : Host,
    getFormattedTimestamp h1 "custom" = getFormattedTimestamp h2 "custom"
    <-> LocalTime h1 (now h1) / 1000 = LocalTime h2 (now h2) / 1000.
Proof.
  intros h1 h2. rewrite !selector_custom. split.
  - apply customTimestamp_fixes_second.
  - apply customTimestamp_of_second.
Qed.

(* ===================================================================== *)
(** * Custom timestamps sort by time *)
(* ===================================================================== *)

Section CustomOrder.

Lemma compare_app (a1 a2 b1 b2 : string) :
  String.length a1 = String.length a2 ->
  String.compare (a1 ++ b1) (a2 ++ b2)
  = orElse (String.compare a1 a2) (String.compare b1 b2).
Proof.
  revert a2. induction a1 as [| c a1 IH]; intros [| d a2] Hlen;
    try discriminate Hlen; [reflexivity |].
  cbn [append String.compare]. injection Hlen as Hlen.
  destruct (Ascii.compare c d); [apply IH, Hlen | reflexivity | reflexivity].
Qed.

Lemma digit_compare (a b : Z) :
  0 <= a <= 9 -> 0 <= b <= 9 -> Ascii.compare (digit a) (digit b) = (a ?= b).
Proof.
  intros Ha Hb.
  assert (Ea : a = 0 \/ a = 1 \/ a = 2 \/ a = 3 \/ a = 4 \/ a = 5 \/ a = 6
               \/ a = 7 \/ a = 8 \/ a = 9) by lia.
  assert (Eb : b = 0 \/ b = 1 \/ b = 2 \/ b = 3 \/ b = 4 \/ b = 5 \/ b = 6
               \/ b = 7 \/ b = 8 \/ b = 9) by lia.
  repeat destruct Ea as [-> | Ea]; try subst a;
    repeat destruct Eb as [-> | Eb]; try subst b; reflexivity.
Qed.

Lemma twoDigits_compare (a b : Z) :
  0 <= a <= 99 -> 0 <= b <= 99 ->
  String.compare (twoDigits a) (twoDigits b) = (a ?= b).
Proof.
  intros Ha Hb. unfold twoDigits. cbn [String.compare].
  rewrite !digit_compare by (Z.div_mod_to_equations; lia).
  destruct (Z.compare_spec (a / 10) (b / 10)) as [Hq | Hq | Hq];
    destruct (Z.compare_spec (a mod 10) (b mod 10)) as [Hr | Hr | Hr];
    symmetry;
    first [ apply Z.compare_eq_iff | apply Z.compare_lt_iff | apply Z.compare_gt_iff ];
    Z.div_mod_to_equations; lia.
Qed.

Lemma four_digit_year_digits (n : Z) :
  1000 <= n <= 9999 ->
  numberToString n = twoDigits (n / 100) ++ twoDigits (n mod 100).
Proof.
  intros Hn. apply String.eqb_eq.
  apply (checked_on_range
           (fun n => String.eqb (numberToString n)
                       (twoDigits (n / 100) ++ twoDigits (n mod 100)))
           1000 10000); [vm_compute; reflexivity | lia].
Qed.

Lemma four_digit_year_compare (a b : Z) :
  1000 <= a <= 9999 -> 1000 <= b <= 9999 ->
  String.compare (numberToString a) (numberToString b) = (a ?= b).
Proof.
  intros Ha Hb. rewrite !four_digit_year_digits by assumption.
  rewrite compare_app by reflexivity.
  rewrite !twoDigits_compare by (Z.div_mod_to_equations; lia).
  destruct (Z.compare_spec (a / 100) (b / 100)) as [Hq | Hq | Hq];
    destruct (Z.compare_spec (a mod 100) (b mod 100)) as [Hr | Hr | Hr];
    cbn [orElse]; symmetry;
    first [ apply Z.compare_eq_iff | apply Z.compare_lt_iff | apply Z.compare_gt_iff ];
    Z.div_mod_to_equations; lia.
Qed.

Lemma DayFromYear_mono (y y' : Z) : y <= y' -> DayFromYear y <= DayFromYear y'.
Proof. intros Hy. unfold DayFromYear. Z.div_mod_to_equations. lia. Qed.

Lemma daysBeforeMonth_next (m m' leap : Z) :
  0 <= m -> m < m' -> m' <= 11 -> 0 <= leap <= 1 ->
  daysBeforeMonth (m + 1) leap <= daysBeforeMonth m' leap.
Proof.
  intros H0 Hlt H11 Hl.
  assert (Em : m = 0 \/ m = 1 \/ m = 2 \/ m = 3 \/ m = 4 \/ m = 5 \/ m = 6
               \/ m = 7 \/ m = 8 \/ m = 9 \/ m = 10) by lia.
  assert (Em' : m' = 1 \/ m' = 2 \/ m' = 3 \/ m' = 4 \/ m' = 5 \/ m' = 6
                \/ m' = 7 \/ m' = 8 \/ m' = 9 \/ m' = 10 \/ m' = 11) by lia.
  repeat destruct Em as [-> | Em]; try subst m;
    repeat destruct Em' as [-> | Em']; try subst m';
    try lia;
    match goal with
    | |- daysBeforeMonth (?a + 1) _ <= _ =>
        let v := eval vm_compute in (a + 1) in change (a + 1) with v
    end;
    cbn [daysBeforeMonth]; lia.
Qed.

(** The earlier of two time values has the earlier fields, read from the
    year down to the second. *)
Lemma earlier_fields_earlier_second (t u : Z) :
  YearFromTime t < YearFromTime u
  \/ YearFromTime t = YearFromTime u
     /\ (MonthFromTime t < MonthFromTime u
         \/ MonthFromTime t = MonthFromTime u
            /\ (DateFromTime t < DateFromTime u
                \/ DateFromTime t = DateFromTime u
                   /\ (HourFromTime t < HourFromTime u
                       \/ HourFromTime t = HourFromTime u
                          /\ (MinFromTime t < MinFromTime u
                              \/ MinFromTime t = MinFromTime u
                                 /\ SecFromTime t < SecFromTime u)))) ->
  t / 1000 < u / 1000.
Proof.
  intros Hlex.
  pose proof (time_value_decomposition t) as Ht.
  pose proof (time_value_decomposition u) as Hu.
  pose proof (DateFromTime_calendar t) as (Hct & Hlt & Hht).
  pose proof (DateFromTime_calendar u) as (Hcu & Hlu & Hhu).
  pose proof (YearFromTime_days t) as [Hyt1 Hyt2].
  pose proof (YearFromTime_days u) as [Hyu1 Hyu2].
  pose proof (MonthFromTime_range t) as Hmt.
  pose proof (MonthFromTime_range u) as Hmu.
  pose proof (HourFromTime_range t). pose proof (HourFromTime_range u).
  pose proof (MinFromTime_range t). pose proof (MinFromTime_range u).
  pose proof (SecFromTime_range t). pose proof (SecFromTime_range u).
  pose proof (msFromTime_range t). pose proof (msFromTime_range u).
  destruct (InLeapYear_days t) as [_ Hleapt].
  destruct (InLeapYear_days u) as [_ Hleapu].
  assert (Hdays : Day t < Day u
                  \/ Day t = Day u
                     /\ (HourFromTime t < HourFromTime u
                         \/ HourFromTime t = HourFromTime u
                            /\ (MinFromTime t < MinFromTime u
                                \/ MinFromTime t = MinFromTime u
                                   /\ SecFromTime t < SecFromTime u))).
  { destruct Hlex as [Hy | [Hy Hlex]].
    - left. pose proof (DayFromYear_mono (YearFromTime t + 1) (YearFromTime u)). lia.
    - assert (Hleap : InLeapYear t = InLeapYear u) by (unfold InLeapYear; now rewrite Hy).
      unfold DayWithinYear in Hct, Hcu. rewrite Hy, Hleap in *.
      destruct Hlex as [Hm | [Hm Hlex]].
      + left.
        pose proof (daysBeforeMonth_next (MonthFromTime t) (MonthFromTime u) (InLeapYear u)).
        lia.
      + rewrite Hm in *. destruct Hlex as [Hd | [Hd Hlex]]; [left; lia | right].
        split; [lia | exact Hlex]. }
  unfold DayWithinYear in Ht, Hu.
  replace (DayFromYear (YearFromTime t) + (Day t - DayFromYear (YearFromTime t)))
    with (Day t) in Ht by lia.
  replace (DayFromYear (YearFromTime u) + (Day u - DayFromYear (YearFromTime u)))
    with (Day u) in Hu by lia.
  unfold msPerDay, msPerHour, msPerMinute, msPerSecond in *.
  clear Hct Hcu Hlt Hlu Hht Hhu Hyt1 Hyt2 Hyu1 Hyu2 Hlex.
  assert (Hts : t / 1000 = Day t * 86400 + HourFromTime t * 3600
                           + MinFromTime t * 60 + SecFromTime t).
  { generalize dependent (Day t). intros. Z.div_mod_to_equations. lia. }
  assert (Hus : u / 1000 = Day u * 86400 + HourFromTime u * 3600
                           + MinFromTime u * 60 + SecFromTime u).
  { generalize dependent (Day u). intros. Z.div_mod_to_equations. lia. }
  rewrite Hts, Hus. nia.
Qed.

Lemma compare_same_head (c : ascii) (x y : string) :
  String.compare (String c x) (String c y) = String.compare x y.
Proof.
  cbn [String.compare]. unfold Ascii.compare. now rewrite N.compare_refl.
Qed.

(** Comparing the fields from the year down to the second is comparing the
    seconds. *)
Lemma fields_compare_seconds (t u : Z) :
  orElse (YearFromTime t ?= YearFromTime u)
    (orElse (MonthFromTime t + 1 ?= MonthFromTime u + 1)
       (orElse (DateFromTime t ?= DateFromTime u)
          (orElse (HourFromTime t ?= HourFromTime u)
             (orElse (MinFromTime t ?= MinFromTime u)
                (SecFromTime t ?= SecFromTime u)))))
  = (t / 1000 ?= u / 1000).
Proof.
  pose proof (earlier_fields_earlier_second t u) as Hlt.
  pose proof (earlier_fields_earlier_second u t) as Hgt.
  pose proof (fields_fix_second t u) as Heq.
  set (st := t / 1000) in *. set (su := u / 1000) in *.
  destruct (Z.compare_spec (YearFromTime t) (YearFromTime u));
    destruct (Z.compare_spec (MonthFromTime t + 1) (MonthFromTime u + 1));
    destruct (Z.compare_spec (DateFromTime t) (DateFromTime u));
    destruct (Z.compare_spec (HourFromTime t) (HourFromTime u));
    destruct (Z.compare_spec (MinFromTime t) (MinFromTime u));
    destruct (Z.compare_spec (SecFromTime t) (SecFromTime u));
    cbn [orElse]; symmetry;
    first [ apply Z.compare_eq_iff; apply Heq; lia
          | apply Z.compare_lt_iff; apply Hlt; lia
          | apply Z.compare_gt_iff; apply Hgt; lia ].
Qed.

End CustomOrder.

(** X8. While the local year has four digits, [custom] timestamps sort as text
    the way their local seconds sort as numbers: the earlier second gives the
    text that comes first, and the same second the same text. *)
Theorem custom_timestamps_sort_by_time (h1 h2 : Host) :
  1000 <= getFullYear h1 (now h1) <= 9999 ->
  1000 <= getFullYear h2 (now h2) <= 9999 ->
  String.compare (getFormattedTimestamp h1 "custom") (getFormattedTimestamp h2 "custom")
  = (LocalTime h1 (now h1) / 1000 ?= LocalTime h2 (now h2) / 1000).
Proof.
  intros Hy1 Hy2.
  rewrite !selector_custom, !customTimestamp_digits.
  rewrite <- fields_compare_seconds.
  unfold getFullYear, getMonth, getDate, getHours, getMinutes, getSeconds in *.
  set (t := LocalTime h1 (now h1)) in *. set (u := LocalTime h2 (now h2)) in *.
  pose proof (MonthFromTime_range t). pose proof (MonthFromTime_range u).
  pose proof (DateFromTime_range t). pose proof (DateFromTime_range u).
  pose proof (HourFromTime_range t). pose proof (HourFromTime_range u).
  pose proof (MinFromTime_range t). pose proof (MinFromTime_range u).
  pose proof (SecFromTime_range t). pose proof (SecFromTime_range u).
  rewrite compare_app by (now rewrite !four_digit_year).
  rewrite four_digit_year_compare by assumption.
  f_equal.
  change ("-" ++ ?x) with (String "-" x). rewrite compare_same_head.
  rewrite compare_app, twoDigits_compare by (reflexivity || lia). f_equal.
  change ("-" ++ ?x) with (String "-" x). rewrite compare_same_head.
  rewrite compare_app, twoDigits_compare by (reflexivity || lia). f_equal.
  change (" " ++ ?x) with (String " " x). rewrite compare_same_head.
  rewrite compare_app, twoDigits_compare by (reflexivity || lia). f_equal.
  change ("-" ++ ?x) with (String "-" x). rewrite compare_same_head.
  rewrite compare_app, twoDigits_compare by (reflexivity || lia). f_equal.
  change ("-" ++ ?x) with (String "-" x). rewrite compare_same_head.
  apply twoDigits_compare; lia.
Qed.

(** The sample host at 13-30-00 and one second later. *)
Lemma custom_timestamps_sort_by_time_witness :
  String.compare
    (getFormattedTimestamp
       (Sample.host "linux" Sample.instant Sample.utcMinus5 Sample.allSucceed) "custom")
    (getFormattedTimestamp
       (Sample.host "linux" (Sample.instant + 1000) Sample.utcMinus5 Sample.allSucceed)
       "custom")
  = Lt.
Proof.
  rewrite (custom_timestamps_sort_by_time
             (Sample.host "linux" Sample.instant Sample.utcMinus5 Sample.allSucceed)
             (Sample.host "linux" (Sample.instant + 1000) Sample.utcMinus5 Sample.allSucceed)).
  - vm_compute. reflexivity.
  - split; apply Z.leb_le; vm_compute; reflexivity.
  - split; apply Z.leb_le; vm_compute; reflexivity.
Defined.

(* ===================================================================== *)
(** * Key presses with an unknown selector *)
(* ===================================================================== *)

Section UnknownSelectorPress.

Variable h : Host.

Lemma onKeyDown_afterFirstLine (ev : KeyDownEvent) (w : World) :
  let format := selectedFormat ev in
  let timestamp := getFormattedTimestamp h format in
  onKeyDown h ev w
  = afterFirstLine h timestamp
      (wrote LogInfo ("Got timestamp: " ++ timestamp ++ " (format: " ++ format ++ ")") w).
Proof. reflexivity. Qed.

Lemma logBlind_afterFirstLine (timestamp : string) : logBlind (afterFirstLine h timestamp).
Proof.
  unfold afterFirstLine.
  apply logBlind_tryCatch; [| intros e; apply logBlind_log].
  apply logBlind_bind; [apply logBlind_copyPasteText | intros _; apply logBlind_showOk].
Qed.

Lemma afterFirstLine_wrote (timestamp : string) (level : LogLevel) (line : string) (w : World) :
  let bare := {| executed := executed w; logged := []; okShown := okShown w |} in
  afterFirstLine h timestamp (wrote level line w)
  = (fst (afterFirstLine h timestamp bare),
     withEarlierLog (logged w ++ [(level, line)]) (snd (afterFirstLine h timestamp bare))).
Proof.
  intros bare.
  rewrite <- (logBlind_afterFirstLine timestamp (logged w ++ [(level, line)])%list bare).
  f_equal. unfold wrote, withEarlierLog, bare. cbn. now rewrite app_nil_r.
Qed.

End UnknownSelectorPress.

(** X9. A key press whose selector is none of [long], [time], [iso] and
    [custom] (a misspelt one, or none at all) does what a key press with the
    selector [short] does: it returns the same, runs the same commands and
    asks the key the same.  Only the format named in its first log line
    differs. *)
Theorem unknown_selector_press_is_short_press
    (h : Host) (ev : KeyDownEvent) (w : World) :
  selectedFormat ev <> "long" ->
  selectedFormat ev <> "time" ->
  selectedFormat ev <> "iso" ->
  selectedFormat ev <> "custom" ->
  let firstLine := fun name : string =>
    (LogInfo, "Got timestamp: " ++ toLocaleDateString h (now h)
              ++ " (format: " ++ name ++ ")") in
  let pressed := onKeyDown h ev w in
  let short := onKeyDown h {| settings := Some {| format := Some "short" |} |} w in
  fst pressed = fst short
  /\ executed (snd pressed) = executed (snd short)
  /\ okShown (snd pressed) = okShown (snd short)
  /\ exists added : list (LogLevel * string),
       logged (snd pressed) = (logged w ++ [firstLine (selectedFormat ev)] ++ added)%list
       /\ logged (snd short) = (logged w ++ [firstLine "short"] ++ added)%list.
Proof.
  intros Hl Ht Hi Hc firstLine pressed short. subst firstLine pressed short.
  rewrite !onKeyDown_afterFirstLine. cbv zeta.
  rewrite (selector_other h _ Hl Ht Hi Hc).
  change (selectedFormat {| settings := Some {| format := Some "short" |} |}) with "short".
  rewrite selector_short.
  rewrite !afterFirstLine_wrote. cbn [fst snd withEarlierLog executed okShown logged].
  repeat split.
  eexists. split; now rewrite <- app_assoc.
Qed.

(** A misspelt selector on the sample host. *)
Lemma unknown_selector_press_is_short_press_witness :
  executed
    (snd (onKeyDown
            (Sample.host "linux" Sample.instant Sample.utcMinus5 Sample.allSucceed)
            {| settings := Some {| format := Some "ISO" |} |} emptyWorld))
  = executed
      (snd (onKeyDown
              (Sample.host "linux" Sample.instant Sample.utcMinus5 Sample.allSucceed)
              {| settings := Some {| format := Some "short" |} |} emptyWorld)).
Proof.
  apply (unknown_selector_press_is_short_press
           (Sample.host "linux" Sample.instant Sample.utcMinus5 Sample.allSucceed)
           {| settings := Some {| format := Some "ISO" |} |} emptyWorld
           (differ "ISO" "long" eq_refl) (differ "ISO" "time" eq_refl)
           (differ "ISO" "iso" eq_refl) (differ "ISO" "custom" eq_refl)).
Defined.

(* ===================================================================== *)
(** * Key presses with an empty format *)
(* ===================================================================== *)

Section EmptyFormatPress.

Variable h : Host.

(** What inserting a text runs and logs: the branch's clipboard command
    first, and lines after those logged before. *)
Lemma copyPasteText_appends (text : string) (w : World) :
  exists (rest : list string) (later : list (LogLevel * string)),
    executed (snd (copyPasteText h text w))
    = (executed w ++ clipboardCommand (branchOf h) text :: rest)%list
    /\ logged (snd (copyPasteText h text w)) = (logged w ++ later)%list.
Proof.
  destruct (branchOf h) eqn:Hb; cbn [clipboardCommand].
  - rewrite (copyPasteText_windows h text w Hb). cbv zeta.
    destruct (execResult h (executed w) _);
      cbn [snd ran wrote executed logged]; rewrite <- ?app_assoc;
      eexists; eexists; split; reflexivity.
  - rewrite (copyPasteText_macos h text w Hb). cbv zeta.
    destruct (execResult h (executed w) _);
      [| destruct (execResult h _ _)];
      cbn [snd ran wrote executed logged]; rewrite <- ?app_assoc;
      eexists; eexists; split;
      first [reflexivity | symmetry; apply app_nil_r].
  - rewrite (copyPasteText_linux h text w Hb). cbv zeta.
    destruct (execResult h (executed w) _);
      [| destruct (execResult h _ _)];
      cbn [snd ran wrote executed logged]; rewrite <- ?app_assoc;
      eexists; eexists; split;
      first [reflexivity | symmetry; apply app_nil_r].
Qed.

End EmptyFormatPress.

(** C10. A key press whose settings hold the empty text as format runs
    exactly as one whose settings hold no format: the empty text is replaced
    by the selector [default], the timestamp is the short date of the host's
    locale, the first line the press logs is [Got timestamp: ] and that date
    with the format named [default], the text handed to [copyPasteText] is
    that date, so the first command the press runs is the branch's clipboard
    command for that date, and the press ends as every press does: with the
    error logged when the insertion throws, and with the key asked once for
    its OK mark when it succeeds. *)
Theorem empty_format_is_absent_format :
  forall (h : Host) (w : World),
    let empty := {| settings := Some {| format := Some "" |} |} in
    let shortDate := toLocaleDateString h (now h) in
    let firstLine := (LogInfo, "Got timestamp: " ++ shortDate ++ " (format: default)") in
    let w0 := {| executed := executed w;
                 logged := logged w ++ [firstLine];
                 okShown := okShown w |} in
    onKeyDown h empty w
    = onKeyDown h {| settings := Some {| format := None |} |} w
    /\ selectedFormat empty = "default"
    /\ getFormattedTimestamp h (selectedFormat empty) = shortDate
    /\ onKeyDown h empty w
       = match copyPasteText h shortDate w0 with
         | (inl e, w1) =>
             (inr tt, wrote LogError ("Error getting timestamp: " ++ errorToString e) w1)
         | (inr _, w1) =>
             let asked := {| executed := executed w1;
                             logged := logged w1;
                             okShown := S (okShown w1) |} in
             match showOkResult h with
             | None => (inr tt, asked)
             | Some e =>
                 (inr tt, wrote LogError ("Error getting timestamp: " ++ errorToString e) asked)
             end
         end
    /\ (exists rest : list string,
          executed (snd (onKeyDown h empty w))
          = (executed w ++ clipboardCommand (branchOf h) shortDate :: rest)%list)
    /\ (exists later : list (LogLevel * string),
          logged (snd (onKeyDown h empty w)) = (logged w ++ firstLine :: later)%list).
Proof.
  intros h w empty shortDate firstLine w0.
  assert (Hrun : onKeyDown h empty w
                 = match copyPasteText h shortDate w0 with
                   | (inl e, w1) =>
                       (inr tt, wrote LogError ("Error getting timestamp: " ++ errorToString e) w1)
                   | (inr _, w1) =>
                       let asked := {| executed := executed w1;
                                       logged := logged w1;
                                       okShown := S (okShown w1) |} in
                       match showOkResult h with
                       | None => (inr tt, asked)
                       | Some e =>
                           (inr tt,
                            wrote LogError ("Error getting timestamp: " ++ errorToString e) asked)
                       end
                   end).
  { unfold onKeyDown, tryCatch, bind, showOk.
    change (log LogInfo ("Got timestamp: " ++ getFormattedTimestamp h (selectedFormat empty)
                         ++ " (format: " ++ selectedFormat empty ++ ")") w)
      with (@inr JsError unit tt, w0).
    cbv iota beta zeta.
    change (getFormattedTimestamp h (selectedFormat empty)) with shortDate.
    destruct (copyPasteText h shortDate w0) as [[e | []] w1]; [reflexivity |].
    destruct (showOkResult h); reflexivity. }
  split; [reflexivity |]. split; [reflexivity |]. split; [reflexivity |].
  split; [exact Hrun |].
  destruct (copyPasteText_appends h shortDate w0) as (rest & later & Hex & Hlog).
  rewrite Hrun.
  destruct (copyPasteText h shortDate w0) as [[e | []] w1]; cbn [snd] in Hex, Hlog;
    [| cbv zeta; destruct (showOkResult h) as [e |]];
    cbn [snd wrote executed logged];
    (split;
     [ exists rest; exact Hex
     | eexists; rewrite Hlog; cbn [w0 logged]; rewrite <- !app_assoc; reflexivity ]).
Qed.
